(** * Ingestion callbacks and context assembly of the multi-query retriever notebook

    The notebook [lab-chatbot-with-multi-query-retriever.ipynb] contains three
    first-party functions:

    - [metadata_func]   (cell 19), the callback handed to the first [JSONLoader];
    - [clean_metadata]  (cell 20), the callback handed to the second [JSONLoader];
    - [_combine_documents] (cell 27), which renders and joins retrieved passages.

    They are embedded here over a small model of the Python objects they
    touch: dictionaries live in a store and are passed by reference, so that
    the in-place updates of the callbacks are visible to the caller, and
    exceptions are explicit outcomes. *)

From Stdlib Require Import Ascii String.
From stdpp Require Import base strings gmap list.

Open Scope string_scope.
Open Scope list_scope.

Set Warnings "-register-all".

(** ** Python values

    A record is one element of the JSON array of the data file: its fields
    hold JSON values.  The loader adds a [str] and an [int]; the callbacks add
    strings and [None]. *)

Inductive value : Type :=
| VNone
| VBool (b : bool)
| VInt (n : Z)
| VFloat (literal : string)
| VStr (s : string)
| VList (items : list value)
| VDict (fields : list (string * value)).

(** The contents of a Python [dict] with string keys. *)
Abbreviation dict := (gmap string value).

(** ** The store

    Every [dict] object has an address; a variable of the program holds the
    address, so two names may denote the same object.  The store gives the
    contents of the object at each address, the empty mapping where no
    object has been built. *)

Definition loc : Type := positive.

Definition heap := loc -> dict.

Definition heap_set (h : heap) (l : loc) (d : dict) : heap :=
  fun l' => if decide (l' = l) then d else h l'.

Definition empty_heap : heap := fun _ => ∅.

(** ** Exceptions and the evaluation monad

    All the exception classes that occur derive from [Exception], so a
    clause [except Exception] catches each of them. *)

Inductive exn : Type :=
| TypeError
| ValueError
| KeyError (key : string)
| RuntimeError.

Inductive outcome (A : Type) : Type :=
| Return (a : A)
| Raise (e : exn).

Arguments Return {A} a.
Arguments Raise {A} e.

(** A computation reads and updates the store and either returns or raises;
    the updates made before an exception is raised stay in the store. *)
Definition py (A : Type) : Type := heap -> outcome A * heap.

Definition ret {A} (a : A) : py A := fun h => (Return a, h).

Definition raise {A} (e : exn) : py A := fun h => (Raise e, h).

Definition bind {A B} (c : py A) (k : A -> py B) : py B :=
  fun h =>
    match c h with
    | (Return a, h') => k a h'
    | (Raise e, h') => (Raise e, h')
    end.

(** [try: body / except Exception: handler] *)
Definition try_except {A} (body : py A) (handler : py A) : py A :=
  fun h =>
    match body h with
    | (Return a, h') => (Return a, h')
    | (Raise _, h') => handler h'
    end.

Declare Scope py_scope.
Delimit Scope py_scope with py.
Notation "'let*' x ':=' c 'in' k" := (bind c (fun x => k))
  (at level 10, x name, c at level 100, k at level 200) : py_scope.
Notation "c '>>' k" := (bind c (fun _ => k))
  (at level 100, k at level 200, right associativity) : py_scope.

(** ** Methods of [dict] *)

(** [d.get(k, dflt)] *)
Definition dict_get (d : loc) (k : string) (dflt : value) : py value :=
  fun h => (Return (default dflt (h d !! k)), h).

(** [d[k]]: raises [KeyError] on a key that is not there. *)
Definition dict_getitem (d : loc) (k : string) : py value :=
  fun h =>
    match h d !! k with
    | Some v => (Return v, h)
    | None => (Raise (KeyError k), h)
    end.

(** [k in d] *)
Definition dict_contains (d : loc) (k : string) : py bool :=
  fun h => (Return (bool_decide (is_Some (h d !! k))), h).

(** [d[k] = v]: updates the object in place. *)
Definition dict_setitem (d : loc) (k : string) (v : value) : py unit :=
  fun h => (Return tt, heap_set h d (<[k := v]> (h d))).

(** [d.pop(k, dflt)]: removes the key when it is there, and never raises. *)
Definition dict_pop (d : loc) (k : string) (dflt : value) : py value :=
  fun h => (Return (default dflt (h d !! k)), heap_set h d (delete k (h d))).

(** ** The record normalizers (cells 19 and 20) *)

Section Normalizer.

(** [datetime] is Python's; its parser and printer are taken as given.
    [parse_iso s] is [Some] exactly when [datetime.fromisoformat] accepts
    the string [s]. *)
Variable datetime : Type.
Variable parse_iso : string -> option datetime.
Variable isoformat : datetime -> string.

(** [datetime.fromisoformat(v)]: [TypeError] on an argument that is not a
    [str], [ValueError] on a string that is not an ISO timestamp. *)
Definition datetime_fromisoformat (v : value) : py datetime :=
  match v with
  | VStr s =>
      match parse_iso s with
      | Some d => ret d
      | None => raise ValueError
      end
  | _ => raise TypeError
  end.

Open Scope py_scope.

Definition metadata_func (record metadata : loc) : py loc :=
  let* name := dict_get record "name" (VStr "") in
  dict_setitem metadata "name" name >>
  let* summary := dict_get record "summary" (VStr "") in
  dict_setitem metadata "summary" summary >>
  let* url := dict_get record "url" (VStr "") in
  dict_setitem metadata "url" url >>
  let* category := dict_get record "category" (VStr "") in
  dict_setitem metadata "category" category >>
  let* updated_raw := dict_get record "updated_at" (VStr "") in
  try_except
    (let* d := datetime_fromisoformat updated_raw in
     dict_setitem metadata "updated_at" (VStr (isoformat d)))
    (let* _ := dict_pop metadata "updated_at" VNone in ret tt) >>
  ret metadata.

Definition clean_metadata (record metadata : loc) : py loc :=
  let* present := dict_contains record "updated_at" in
  (if present : bool then
     try_except
       (let* raw := dict_getitem record "updated_at" in
        let* d := datetime_fromisoformat raw in
        dict_setitem metadata "updated_at" (VStr (isoformat d)))
       (dict_setitem metadata "updated_at" VNone)
   else ret tt) >>
  ret metadata.

Close Scope py_scope.

(** What [datetime.fromisoformat] makes of a field value, as a value. *)
Definition parsed (v : value) : option datetime :=
  match v with
  | VStr s => parse_iso s
  | _ => None
  end.

End Normalizer.

Arguments datetime_fromisoformat {datetime} parse_iso v _.
Arguments metadata_func {datetime} parse_iso isoformat record metadata _.
Arguments clean_metadata {datetime} parse_iso isoformat record metadata _.
Arguments parsed {datetime} parse_iso v.

(** The signature [JSONLoader] expects of its [metadata_func] argument. *)
Definition callback : Type := loc -> loc -> py loc.

(** The notebook hands two callbacks to [JSONLoader]: [metadata_func] to the
    loader of cell 19, [clean_metadata] to the loader of cell 21. *)
Inductive normalizer : Type := MetadataFunc | CleanMetadata.

Definition normalizer_callback {datetime : Type}
  (parse_iso : string -> option datetime) (isoformat : datetime -> string)
  (n : normalizer) : callback :=
  match n with
  | MetadataFunc => metadata_func parse_iso isoformat
  | CleanMetadata => clean_metadata parse_iso isoformat
  end.

(** The mapping a callback hands back: the contents, after the call, of the
    object it returns. *)
Definition produced (f : callback) (record metadata : loc) (h : heap)
  : option dict :=
  match f record metadata h with
  | (Return l, h') => Some (h' l)
  | (Raise _, _) => None
  end.

(** The four fields that [metadata_func] copies with a default. *)
Definition defaulted_key (k : string) : Prop :=
  k = "name" \/ k = "summary" \/ k = "url" \/ k = "category".

#[global] Instance defaulted_key_dec k : Decision (defaulted_key k).
Proof. unfold defaulted_key. apply _. Defined.

(** ** The loader (cells 19 and 21)

    [JSONLoader(file_path, jq_schema=".[]", content_key="content",
    metadata_func=f)] and [loader.load_and_split(text_splitter)] are
    LangChain's.  The notebook only configures and calls them, so the part of
    their behaviour that decides what a passage carries is written out here:
    the loader walks the elements of the JSON array in order, takes the text
    of the [content] field, builds a fresh mapping with the keys [source] and
    [seq_num] and gives it, with the record, to the callback; the splitter
    then cuts the text and gives every chunk a deep copy of the metadata of
    the document it was cut from.  The output recorded in cell 22 shows these
    two keys, in this order, before the keys the callback adds.

    Documents are values: the loader hands each callback call objects of its
    own, and nothing updates a document once it is built. *)

Record Document : Type := { page_content : string; metadata : dict }.

Declare Scope outcome_scope.
Delimit Scope outcome_scope with outcome.

Definition outcome_bind {A B} (o : outcome A) (k : A -> outcome B)
  : outcome B :=
  match o with
  | Return a => k a
  | Raise e => Raise e
  end.

Notation "'let*' x ':=' c 'in' k" := (outcome_bind c (fun x => k))
  (at level 10, x name, c at level 100, k at level 200) : outcome_scope.

(** The two objects of one callback call: the record, and the mapping the
    loader has just built. *)
Definition sample_loc : loc := 1%positive.
Definition fields_loc : loc := 2%positive.

Definition two_objects (record metadata : dict) : heap :=
  heap_set (heap_set empty_heap sample_loc record) fields_loc metadata.

Definition call_callback (f : callback) (sample additional_fields : dict)
  : outcome dict :=
  match f sample_loc fields_loc (two_objects sample additional_fields) with
  | (Return l, h') => Return (h' l)
  | (Raise e, _) => Raise e
  end.

Section JSONLoader.

Variable file_path : string.
Variable the_metadata_func : callback.

Open Scope outcome_scope.

(** [_get_text] with [content_key="content"] and the default
    [text_content=True]: the field must be there and must be a [str]. *)
Definition _get_text (sample : dict) : outcome string :=
  match sample !! "content" with
  | None => Raise (KeyError "content")
  | Some (VStr text) => Return text
  | Some _ => Raise ValueError
  end.

(** [_get_metadata(sample, source=str(file_path), seq_num=i)] *)
Definition _get_metadata (sample : dict) (seq_num : nat) : outcome dict :=
  call_callback the_metadata_func sample
    (<["seq_num" := VInt (Z.of_nat seq_num)]>
       (<["source" := VStr file_path]> ∅)).

(** The two probes of the first sample that precede the loop. *)
Definition _validate_content_key (first : dict) : outcome unit :=
  match first !! "content" with
  | None | Some VNone => Raise ValueError
  | Some _ => Return tt
  end.

Definition _validate_metadata_func (first : dict) : outcome unit :=
  let* _ := call_callback the_metadata_func first ∅ in Return tt.

(** [for i, sample in enumerate(data, index + 1)] *)
Fixpoint _parse_from (i : nat) (data : list dict) : outcome (list Document) :=
  match data with
  | [] => Return []
  | sample :: rest =>
      let* text := _get_text sample in
      let* md := _get_metadata sample i in
      let* docs := _parse_from (S i) rest in
      Return ({| page_content := text; metadata := md |} :: docs)
  end.

(** [loader.load()] on a file whose array has the elements [data]; probing
    the first element of an empty array fails. *)
Definition load (data : list dict) : outcome (list Document) :=
  match data with
  | [] => Raise RuntimeError
  | first :: _ =>
      let* _ := _validate_content_key first in
      let* _ := _validate_metadata_func first in
      _parse_from 1 data
  end.

(** The splitter is built on a tokenizer; what it makes of a text is taken
    as given. *)
Variable split_text : string -> list string.

(** The chunks of one document, each with a copy of its metadata. *)
Definition split_document (doc : Document) : list Document :=
  map (fun chunk => {| page_content := chunk; metadata := metadata doc |})
      (split_text (page_content doc)).

Definition split_documents (documents : list Document) : list Document :=
  flat_map split_document documents.

Definition load_and_split (data : list dict) : outcome (list Document) :=
  let* docs := load data in Return (split_documents docs).

Close Scope outcome_scope.

End JSONLoader.

(** The sequence number a passage carries. *)
Definition seq_num (doc : Document) : option value :=
  metadata doc !! "seq_num".

(** A record whose [content] is a string. *)
Definition has_text (sample : dict) : Prop :=
  exists text, sample !! "content" = Some (VStr text).

(** ** The context assembler (cell 27) *)

Section ContextAssembler.

(** [format_document] and the prompt templates are LangChain's. *)
Variable prompt : Type.
Variable format_document : Document -> prompt -> outcome string.

Open Scope outcome_scope.

(** [[format_document(doc, document_prompt) for doc in docs]] *)
Fixpoint format_each (docs : list Document) (document_prompt : prompt)
  : outcome (list string) :=
  match docs with
  | [] => Return []
  | doc :: rest =>
      let* text := format_document doc document_prompt in
      let* texts := format_each rest document_prompt in
      Return (text :: texts)
  end.

(** [document_separator.join(doc_strings)] *)
Fixpoint str_join (separator : string) (parts : list string) : string :=
  match parts with
  | [] => ""
  | part :: rest =>
      match rest with
      | [] => part
      | _ :: _ => part +:+ separator +:+ str_join separator rest
      end
  end.

Definition _combine_documents (docs : list Document)
  (document_prompt : prompt) (document_separator : string) : outcome string :=
  let* doc_strings := format_each docs document_prompt in
  Return (str_join document_separator doc_strings).

Close Scope outcome_scope.

End ContextAssembler.

Arguments format_each {prompt} format_document docs document_prompt.
Arguments _combine_documents {prompt} format_document docs document_prompt
  document_separator.

(** ** Instances to run the definitions on

    A parser and printer for the two layouts [YYYY-MM-DD] and
    [YYYY-MM-DD?HH:MM:SS] (any one character between date and time), which
    every version of [datetime.fromisoformat] accepts; a splitter that cuts a
    text into windows of characters; and, further down, a renderer of
    templates. *)

Module IsoSample.

Record datetime : Type :=
  { year : nat; month : nat; day : nat;
    hour : nat; minute : nat; second : nat }.

Definition digit (c : ascii) : option nat :=
  let n := nat_of_ascii c in
  if Nat.leb 48 n && Nat.leb n 57 then Some (n - 48) else None.

Fixpoint number_from (acc : nat) (cs : list ascii) : option nat :=
  match cs with
  | [] => Some acc
  | c :: rest =>
      match digit c with
      | Some d => number_from (10 * acc + d) rest
      | None => None
      end
  end.

Definition field (s : string) (start len : nat) : option nat :=
  number_from 0 (list_ascii_of_string (substring start len s)).

Definition char_at (s : string) (i : nat) (c : ascii) : bool :=
  bool_decide (String.get i s = Some c).

Definition is_leap (y : nat) : bool :=
  Nat.eqb (y mod 4) 0 && (negb (Nat.eqb (y mod 100) 0) || Nat.eqb (y mod 400) 0).

Definition days_in_month (y m : nat) : nat :=
  match m with
  | 2 => if is_leap y then 29 else 28
  | 4 | 6 | 9 | 11 => 30
  | _ => 31
  end.

Definition valid (d : datetime) : bool :=
  Nat.leb 1 (year d) && Nat.leb 1 (month d) && Nat.leb (month d) 12
  && Nat.leb 1 (day d) && Nat.leb (day d) (days_in_month (year d) (month d))
  && Nat.ltb (hour d) 24 && Nat.ltb (minute d) 60 && Nat.ltb (second d) 60.

Definition parse_time (s : string) : option (nat * nat * nat) :=
  if char_at s 13 ":" && char_at s 16 ":" then
    hh ← field s 11 2; mm ← field s 14 2; ss ← field s 17 2;
    Some (hh, mm, ss)
  else None.

Definition parse (s : string) : option datetime :=
  let len := String.length s in
  if bool_decide (len = 10 \/ len = 19) && char_at s 4 "-" && char_at s 7 "-"
  then
    y ← field s 0 4; m ← field s 5 2; d ← field s 8 2;
    t ← (if bool_decide (len = 19) then parse_time s else Some (0, 0, 0));
    let dt := {| year := y; month := m; day := d;
                 hour := t.1.1; minute := t.1.2; second := t.2 |} in
    if valid dt then Some dt else None
  else None.

Definition digit_char (n : nat) : ascii := ascii_of_nat (48 + n mod 10).

Definition two_digits (n : nat) : string :=
  String (digit_char (n / 10)) (String (digit_char n) "").

Definition four_digits (n : nat) : string :=
  two_digits (n / 100) +:+ two_digits (n mod 100).

Definition isoformat (d : datetime) : string :=
  four_digits (year d) +:+ "-" +:+ two_digits (month d) +:+ "-"
  +:+ two_digits (day d) +:+ "T" +:+ two_digits (hour d) +:+ ":"
  +:+ two_digits (minute d) +:+ ":" +:+ two_digits (second d).

End IsoSample.

Definition sample_callback (n : normalizer) : callback :=
  normalizer_callback IsoSample.parse IsoSample.isoformat n.

(** Windows of [size] characters, each starting [step] characters after the
    one before; the empty text has no window. *)
Fixpoint windows (fuel size step : nat) (cs : list ascii) : list string :=
  match fuel with
  | O => []
  | S fuel' =>
      match cs with
      | [] => []
      | _ :: _ =>
          if Nat.leb (length cs) size then [string_of_list_ascii cs]
          else string_of_list_ascii (take size cs)
                 :: windows fuel' size step (drop (S (pred step)) cs)
      end
  end.

Definition window_splitter (size overlap : nat) (text : string) : list string :=
  windows (String.length text) size (size - overlap)
          (list_ascii_of_string text).

Definition newline : string := String (ascii_of_nat 10) "".

(** A mapping given by its entries (the keys are pairwise different). *)
Definition dict_of (fields : list (string * value)) : dict := list_to_map fields.

(** ** The properties under study, as predicates on a callback *)

(** The raw [updated_at] field of a record is a string that the parser
    accepts. *)
Definition raw_parses {datetime : Type} (parse_iso : string -> option datetime)
  (record : dict) : Prop :=
  exists s d, record !! "updated_at" = Some (VStr s) /\ parse_iso s = Some d.

(** [updated_at] is in the produced mapping exactly when the raw value
    parses, and is never [None]. *)
Definition updated_at_iff_valid {datetime : Type}
  (parse_iso : string -> option datetime) (f : callback) : Prop :=
  forall r m h, exists md,
    produced f r m h = Some md /\
    (is_Some (md !! "updated_at") <-> raw_parses parse_iso (h r)) /\
    md !! "updated_at" <> Some VNone.

(** The call leaves both of its argument objects as they were. *)
Definition leaves_inputs_unmodified (f : callback) : Prop :=
  forall r m h, exists l h',
    f r m h = (Return l, h') /\ h' r = h r /\ h' m = h m.

(** A defaulted field that the record lacks is in the produced mapping,
    with the empty string. *)
Definition defaults_absent_fields (f : callback) : Prop :=
  forall r m h k, defaulted_key k -> h r !! k = None ->
    exists md, produced f r m h = Some md /\ md !! k = Some (VStr "").

(** The sequence numbers of the passages cut from one record are pairwise
    different. *)
Definition seq_num_unique_within_record (file_path : string) (f : callback)
  (split_text : string -> list string) : Prop :=
  forall data docs i d j k p q,
    load file_path f data = Return docs ->
    docs !! i = Some d ->
    split_document split_text d !! j = Some p ->
    split_document split_text d !! k = Some q ->
    j <> k ->
    seq_num p <> seq_num q.

(** A record without text is passed over: the load returns, one document
    per record, and the document of that record yields no passage. *)
Definition textless_record_skipped (file_path : string) (f : callback)
  (split_text : string -> list string) : Prop :=
  forall data i sample,
    data !! i = Some sample ->
    sample !! "content" = None \/ sample !! "content" = Some (VStr "") ->
    exists docs,
      load file_path f data = Return docs /\
      load_and_split file_path f split_text data
        = Return (split_documents split_text docs) /\
      length docs = length data /\
      forall d, docs !! i = Some d -> split_document split_text d = [].

(** ** The records used as concrete inputs *)

Definition dated_record : dict :=
  dict_of [("name", VStr "Work From Home Policy");
           ("content", VStr "Effective: March 2020");
           ("updated_at", VStr "2020-03-01")].

Definition undated_record : dict :=
  dict_of [("content", VStr "Effective: March 2020");
           ("updated_at", VStr "not-a-date")].

Definition loader_fields : dict :=
  dict_of [("source", VStr "temp.json"); ("seq_num", VInt 1)].

Definition textless_record : dict :=
  dict_of [("name", VStr "April Work From Home Update");
           ("updated_at", VStr "2022-04-29")].

Definition empty_text_record : dict :=
  dict_of [("name", VStr "April Work From Home Update");
           ("content", VStr "");
           ("updated_at", VStr "2022-04-29")].

(** A renderer for templates with fields [{name}]: a field is filled from
    [page_content] and the entries of the metadata, a field that is not
    there raises.  Doubled braces are not supported. *)

Module TemplateSample.

Definition str (v : value) : option string :=
  match v with
  | VStr s => Some s
  | VNone => Some "None"
  | VBool true => Some "True"
  | VBool false => Some "False"
  | VFloat literal => Some literal
  | VInt _ | VList _ | VDict _ => None
  end.

Definition document_info (doc : Document) (name : string) : option string :=
  if bool_decide (name = "page_content") then Some (page_content doc)
  else metadata doc !! name ≫= str.

Fixpoint fill (info : string -> option string) (template : list ascii)
  (field : option string) : outcome string :=
  match template with
  | [] =>
      match field with
      | None => Return ""
      | Some _ => Raise ValueError
      end
  | c :: rest =>
      match field with
      | None =>
          if bool_decide (c = "{"%char) then fill info rest (Some "")
          else outcome_bind (fill info rest None)
                            (fun text => Return (String c text))
      | Some name =>
          if bool_decide (c = "}"%char) then
            match info name with
            | Some text =>
                outcome_bind (fill info rest None)
                             (fun more => Return (text +:+ more))
            | None => Raise ValueError
            end
          else fill info rest (Some (name +:+ String c ""))
      end
  end.

Definition format_document (doc : Document) (template : string)
  : outcome string :=
  fill (document_info doc) (list_ascii_of_string template) None.

End TemplateSample.

(** The template and the two passages of the separator example, with the
    passage text under the name [page_content] as in the notebook's own
    [LLM_DOCUMENT_PROMPT]. *)
Definition source_template : string :=
  "SOURCE: {name}" +:+ newline +:+ "{page_content}".

Definition LLM_DOCUMENT_PROMPT : string :=
  newline +:+ "---" +:+ newline +:+ "SOURCE: {name}" +:+ newline
  +:+ "{page_content}" +:+ newline +:+ "---" +:+ newline.

Definition passage (name text : string) : Document :=
  {| page_content := text; metadata := dict_of [("name", VStr name)] |}.

Definition two_passage_context : string :=
  "SOURCE: A" +:+ newline +:+ "x" +:+ newline +:+ newline
  +:+ "SOURCE: B" +:+ newline +:+ "y".

(** ** The run recorded in cell 22

    The cell prints the metadata of the first three passages.  The records
    below have the fields that output shows; their texts, which the output
    does not show, are short stand-ins, and their dates are in the
    [YYYY-MM-DD] layout. *)

Definition recorded_source : string :=
  "C:\Users\kenneth\Desktop\IronHack AI Engineer\multi-query-retriever\lab-chatbot-with-multi-query-retriever\temp.json".

Definition recorded_summary_1 : string :=
  "This policy outlines the guidelines for full-time remote work, including eligibility, equipment and resources, workspace requirements, communication expectations, performance expectations, time tracking and overtime, confidentiality and data security, health and well-being, and policy reviews and updates. Employees are encouraged to direct any questions or concerns".

Definition recorded_summary_2 : string :=
  "Starting May 2022, employees will need to work two days a week in the office. Coordinate with your supervisor and HR department for these days while following safety protocols.".

Definition recorded_summary_3 : string :=
  "Starting May 1, 2023, our hybrid work policy will require employees to work from the office three days a week and two days remotely.".

Definition recorded_record (name summary url updated_at text : string) : dict :=
  dict_of [("name", VStr name); ("summary", VStr summary); ("url", VStr url);
           ("category", VStr "teams"); ("updated_at", VStr updated_at);
           ("content", VStr text)].

Definition recorded_records : list dict :=
  [recorded_record "Work From Home Policy" recorded_summary_1
     "./sharepoint/Work from home policy.txt" "2020-03-01" "Effective: March 2020";
   recorded_record "April Work From Home Update" recorded_summary_2
     "./sharepoint/April work from home update.txt" "2022-04-29" "Starting May 2022";
   recorded_record "Wfh Policy Update May 2023" recorded_summary_3
     "./sharepoint/WFH policy update May 2023.txt" "2023-05-01" "As of May 1, 2023"].

Definition recorded_metadata (seq : Z) (name summary url updated_at : string)
  : dict :=
  dict_of [("source", VStr recorded_source); ("seq_num", VInt seq);
           ("name", VStr name); ("summary", VStr summary); ("url", VStr url);
           ("category", VStr "teams"); ("updated_at", VStr updated_at)].

Definition recorded_output : list dict :=
  [recorded_metadata 1 "Work From Home Policy" recorded_summary_1
     "./sharepoint/Work from home policy.txt" "2020-03-01T00:00:00";
   recorded_metadata 2 "April Work From Home Update" recorded_summary_2
     "./sharepoint/April work from home update.txt" "2022-04-29T00:00:00";
   recorded_metadata 3 "Wfh Policy Update May 2023" recorded_summary_3
     "./sharepoint/WFH policy update May 2023.txt" "2023-05-01T00:00:00"].

(** A mapping that already holds entries under the keys the callbacks
    write. *)
Definition stale_fields : dict :=
  dict_of [("source", VStr "temp.json"); ("seq_num", VInt 1);
           ("name", VStr "stale"); ("updated_at", VNone)].

(** A passage whose metadata has no [name]. *)
Definition nameless_passage : Document :=
  {| page_content := "z"; metadata := dict_of [("seq_num", VInt 2)] |}.

(** The document the first loader makes of [dated_record] as the record
    number [seq] of the file. *)
Definition dated_document (seq : Z) : Document :=
  {| page_content := "Effective: March 2020";
     metadata :=
       dict_of [("source", VStr "temp.json"); ("seq_num", VInt seq);
                ("name", VStr "Work From Home Policy"); ("summary", VStr "");
                ("url", VStr ""); ("category", VStr "");
                ("updated_at", VStr "2020-03-01T00:00:00")] |}.

(** * Facts *)

(** ** The store *)

Lemma heap_set_eq h l d : heap_set h l d l = d.
Proof. unfold heap_set. by rewrite decide_True. Qed.

Lemma heap_set_ne h l d l' : l' <> l -> heap_set h l d l' = h l'.
Proof. intros. unfold heap_set. by rewrite decide_False. Qed.

Lemma heap_set_insert_other h l k v l' k' :
  k <> k' -> heap_set h l (<[k := v]> (h l)) l' !! k' = h l' !! k'.
Proof.
  intros Hk. unfold heap_set.
  case_decide; subst; [by rewrite lookup_insert_ne | done].
Qed.

(** ** What a call of each callback does to the store *)

Section NormalizerFacts.

Context {datetime : Type}.
Variable parse_iso : string -> option datetime.
Variable isoformat : datetime -> string.

Lemma fromisoformat_run v h :
  datetime_fromisoformat parse_iso v h =
    match parsed parse_iso v with
    | Some d => (Return d, h)
    | None => (Raise (match v with VStr _ => ValueError | _ => TypeError end), h)
    end.
Proof.
  destruct v; cbn; try done.
  unfold datetime_fromisoformat. by destruct (parse_iso s).
Qed.

Ltac run_callback :=
  unfold metadata_func, clean_metadata, bind, try_except, dict_get,
    dict_getitem, dict_contains, dict_setitem, dict_pop, ret; cbn.

Ltac split_lookups :=
  rewrite ?lookup_delete, ?lookup_insert; unfold defaulted_key in *;
  repeat case_decide; simplify_eq; try done;
  try (exfalso; intuition congruence).

(** [metadata_func] returns its second argument, touches no other object,
    and leaves in it: the four copied fields, [updated_at] when the raw value
    parses, and every other entry as it was. *)
Lemma metadata_func_run r m h :
  exists h', metadata_func parse_iso isoformat r m h = (Return m, h') /\
    (forall l, l <> m -> h' l = h l) /\
    (forall k, h' m !! k =
       if decide (k = "updated_at")
       then (fun d => VStr (isoformat d))
              <$> parsed parse_iso (default (VStr "") (h r !! "updated_at"))
       else if decide (defaulted_key k)
            then Some (default (VStr "") (h r !! k))
            else h m !! k).
Proof.
  run_callback.
  rewrite !heap_set_insert_other by done.
  rewrite fromisoformat_run.
  destruct (parsed _ _) as [d|] eqn:Hp; cbn.
  all: eexists; split; [reflexivity|]; split.
  all: try (intros l Hl; by rewrite !heap_set_ne by done).
  all: intros k; rewrite !heap_set_eq; split_lookups.
Qed.

(** [clean_metadata] returns its second argument, touches no other object,
    and writes [updated_at] only, and only when the record has the key. *)
Lemma clean_metadata_run r m h :
  exists h', clean_metadata parse_iso isoformat r m h = (Return m, h') /\
    (forall l, l <> m -> h' l = h l) /\
    (forall k, h' m !! k =
       if decide (k = "updated_at")
       then match h r !! "updated_at" with
            | Some raw =>
                Some (match parsed parse_iso raw with
                      | Some d => VStr (isoformat d)
                      | None => VNone
                      end)
            | None => h m !! "updated_at"
            end
       else h m !! k).
Proof.
  run_callback.
  destruct (h r !! "updated_at") as [raw|] eqn:Hraw; cbn.
  - rewrite Hraw, fromisoformat_run.
    destruct (parsed _ _) as [d|] eqn:Hp; cbn.
    all: eexists; split; [reflexivity|]; split.
    all: try (intros l Hl; by rewrite !heap_set_ne by done).
    all: intros k; rewrite !heap_set_eq; split_lookups.
  - eexists; split; [reflexivity|]; split; [done|].
    intros k. case_decide; by subst.
Qed.

Lemma produced_run (f : callback) r m h h' :
  f r m h = (Return m, h') -> produced f r m h = Some (h' m).
Proof. intros Hrun. unfold produced. by rewrite Hrun. Qed.

End NormalizerFacts.

(** ** The record normalizers *)

(** C10: [metadata_func] returns normally on every record mapping and every
    metadata mapping, whatever the store: the parsing step either returns or
    raises, a raise is caught by the handler, and the [pop] of the handler
    returns whether or not the key is there. *)
Theorem metadata_func_total {datetime : Type}
  (parse_iso : string -> option datetime) (isoformat : datetime -> string)
  (r m : loc) (h : heap) :
  (exists h', metadata_func parse_iso isoformat r m h = (Return m, h'))
  /\ (forall v, match parsed parse_iso v with
                | Some d => datetime_fromisoformat parse_iso v h = (Return d, h)
                | None => exists e,
                    datetime_fromisoformat parse_iso v h = (Raise e, h)
                end)
  /\ (forall k dflt, exists v h',
        dict_pop m k dflt h = (Return v, h') /\ h' m !! k = None).
Proof.
  split; [|split].
  - destruct (metadata_func_run parse_iso isoformat r m h) as (h' & Hrun & _).
    by exists h'.
  - intros v. rewrite fromisoformat_run. destruct (parsed parse_iso v); eauto.
  - intros k dflt. unfold dict_pop. do 2 eexists. split; [reflexivity|].
    by rewrite heap_set_eq, lookup_delete_eq.
Qed.



(** C1, as stated, fails: handed a record whose [updated_at] does not parse,
    [clean_metadata] stores [None] under [updated_at]. *)
Lemma updated_at_iff_valid_counterexample :
  ~ (forall n : normalizer, updated_at_iff_valid IsoSample.parse (sample_callback n)).
Proof.
  intros Hall.
  destruct (Hall CleanMetadata sample_loc fields_loc
              (two_objects undated_record loader_fields))
    as (md & Hmd & _ & Hnone).
  destruct (clean_metadata_run IsoSample.parse IsoSample.isoformat
              sample_loc fields_loc (two_objects undated_record loader_fields))
    as (h' & Hrun & _ & Hk).
  apply produced_run in Hrun.
  unfold sample_callback, normalizer_callback in Hmd.
  rewrite Hrun in Hmd. injection Hmd as <-.
  apply Hnone. rewrite Hk. vm_compute. reflexivity.
Qed.

(** C1, amended: with a parser that rejects the empty string,
    [metadata_func] produces a mapping in which [updated_at] is present
    exactly when the record's raw value parses, and is then the printed
    timestamp, never [None]; [clean_metadata] produces a mapping whose
    [updated_at] is the printed timestamp when the record's value parses,
    [None] when the record has the key with a value that does not parse, and
    the entry it received when the record has no such key. *)
Theorem updated_at_by_callback {datetime : Type}
  (parse_iso : string -> option datetime) (isoformat : datetime -> string)
  (r m : loc) (h : heap) :
  parse_iso "" = None ->
  (exists md,
     produced (metadata_func parse_iso isoformat) r m h = Some md /\
     (is_Some (md !! "updated_at") <-> raw_parses parse_iso (h r)) /\
     (forall v, md !! "updated_at" = Some v ->
        exists s d, h r !! "updated_at" = Some (VStr s)
                    /\ parse_iso s = Some d /\ v = VStr (isoformat d)) /\
     md !! "updated_at" <> Some VNone)
  /\
  (exists md,
     produced (clean_metadata parse_iso isoformat) r m h = Some md /\
     md !! "updated_at" =
       match h r !! "updated_at" with
       | Some raw => Some (match parsed parse_iso raw with
                           | Some d => VStr (isoformat d)
                           | None => VNone
                           end)
       | None => h m !! "updated_at"
       end).
Proof.
  intros Hempty. split.
  - destruct (metadata_func_run parse_iso isoformat r m h)
      as (h' & Hrun & _ & Hk).
    exists (h' m). split; [by apply produced_run|].
    assert (Hshape : forall v, h' m !! "updated_at" = Some v ->
              exists s d, h r !! "updated_at" = Some (VStr s)
                          /\ parse_iso s = Some d /\ v = VStr (isoformat d)).
    { intros v. rewrite Hk, decide_True by done.
      destruct (h r !! "updated_at") as [[]|] eqn:Hraw; cbn;
        rewrite ?Hempty; cbn; try done.
      destruct (parse_iso s) as [d|] eqn:Hparse; cbn; [|done].
      intros [= <-]. eauto. }
    split; [|split; [exact Hshape|]].
    + split.
      * intros [v Hv]. destruct (Hshape v Hv) as (s & d & ? & ? & _).
        by exists s, d.
      * intros (s & d & Hraw & Hparse).
        rewrite Hk, decide_True by done. rewrite Hraw. cbn.
        rewrite Hparse. by eexists.
    + intros Hv. by destruct (Hshape _ Hv) as (s & d & _ & _ & ?).
  - destruct (clean_metadata_run parse_iso isoformat r m h)
      as (h' & Hrun & _ & Hk).
    exists (h' m). split; [by apply produced_run|].
    by rewrite Hk, decide_True by done.
Qed.

Lemma updated_at_by_callback_witness :
  IsoSample.parse "" = None
  /\ (exists md,
        produced (metadata_func IsoSample.parse IsoSample.isoformat)
                 sample_loc fields_loc
                 (two_objects undated_record loader_fields) = Some md
        /\ md !! "updated_at" <> Some VNone)
  /\ (exists md,
        produced (clean_metadata IsoSample.parse IsoSample.isoformat)
                 sample_loc fields_loc
                 (two_objects undated_record loader_fields) = Some md
        /\ md !! "updated_at" = Some VNone).
Proof.
  split; [vm_compute; reflexivity|].
  destruct (updated_at_by_callback IsoSample.parse IsoSample.isoformat
              sample_loc fields_loc (two_objects undated_record loader_fields))
    as [(md1 & Hmd1 & _ & _ & Hnone) (md2 & Hmd2 & Hval)];
    [vm_compute; reflexivity|].
  split.
  - exists md1. split; [exact Hmd1 | exact Hnone].
  - exists md2. split; [exact Hmd2 | exact Hval].
Defined.

(** C4, as stated, fails: [clean_metadata] adds none of the four fields, so
    a record without [name] gets no [name] entry at all. *)
Lemma defaults_absent_fields_counterexample :
  ~ (forall n : normalizer, defaults_absent_fields (sample_callback n)).
Proof.
  intros Hall.
  destruct (Hall CleanMetadata sample_loc fields_loc
              (two_objects undated_record loader_fields) "name")
    as (md & Hmd & Hname).
  - unfold defaulted_key. auto.
  - vm_compute. reflexivity.
  - destruct (clean_metadata_run IsoSample.parse IsoSample.isoformat
                sample_loc fields_loc
                (two_objects undated_record loader_fields))
      as (h' & Hrun & _ & Hk).
    apply produced_run in Hrun.
    unfold sample_callback, normalizer_callback in Hmd.
    rewrite Hrun in Hmd. injection Hmd as <-.
    rewrite Hk in Hname. vm_compute in Hname. discriminate Hname.
Qed.

(** C4, amended: in the mapping produced by [metadata_func] each of [name],
    [summary], [url] and [category] is present, with the record's value when
    the record has the field and with the empty string when it has not; in
    the mapping produced by [clean_metadata] each of the four is as in the
    mapping it received. *)
Theorem defaulted_fields_by_callback {datetime : Type}
  (parse_iso : string -> option datetime) (isoformat : datetime -> string)
  (r m : loc) (h : heap) (k : string) :
  defaulted_key k ->
  (exists md,
     produced (metadata_func parse_iso isoformat) r m h = Some md /\
     md !! k = Some (default (VStr "") (h r !! k)))
  /\
  (exists md,
     produced (clean_metadata parse_iso isoformat) r m h = Some md /\
     md !! k = h m !! k).
Proof.
  intros Hkey.
  assert (k <> "updated_at") as Hne
    by (intros ->; unfold defaulted_key in Hkey; intuition congruence).
  split.
  - destruct (metadata_func_run parse_iso isoformat r m h)
      as (h' & Hrun & _ & Hk).
    exists (h' m). split; [by apply produced_run|].
    by rewrite Hk, decide_False, decide_True by done.
  - destruct (clean_metadata_run parse_iso isoformat r m h)
      as (h' & Hrun & _ & Hk).
    exists (h' m). split; [by apply produced_run|].
    by rewrite Hk, decide_False by done.
Qed.

Lemma defaulted_fields_by_callback_witness :
  defaulted_key "summary"
  /\ (exists md,
        produced (metadata_func IsoSample.parse IsoSample.isoformat)
                 sample_loc fields_loc
                 (two_objects dated_record loader_fields) = Some md
        /\ md !! "summary" = Some (VStr ""))
  /\ (exists md,
        produced (clean_metadata IsoSample.parse IsoSample.isoformat)
                 sample_loc fields_loc
                 (two_objects dated_record loader_fields) = Some md
        /\ md !! "summary" = None).
Proof.
  assert (Hkey : defaulted_key "summary")
    by (unfold defaulted_key; right; left; reflexivity).
  split; [exact Hkey|].
  exact (defaulted_fields_by_callback IsoSample.parse IsoSample.isoformat
           sample_loc fields_loc (two_objects dated_record loader_fields)
           "summary" Hkey).
Defined.

(** C3, as stated, fails for both callbacks: each writes into the metadata
    mapping it was handed. *)
Lemma leaves_inputs_unmodified_counterexample :
  ~ leaves_inputs_unmodified (sample_callback MetadataFunc)
  /\ ~ leaves_inputs_unmodified (sample_callback CleanMetadata).
Proof.
  split; intros Hpure.
  - destruct (Hpure sample_loc fields_loc (two_objects dated_record loader_fields))
      as (l & h' & Hrun & _ & Hm).
    destruct (metadata_func_run IsoSample.parse IsoSample.isoformat
                sample_loc fields_loc (two_objects dated_record loader_fields))
      as (h'' & Hrun' & _ & Hk).
    unfold sample_callback, normalizer_callback in Hrun.
    rewrite Hrun' in Hrun. injection Hrun as <- <-.
    apply (f_equal (fun d : dict => d !! "name")) in Hm.
    rewrite Hk in Hm. vm_compute in Hm. discriminate Hm.
  - destruct (Hpure sample_loc fields_loc (two_objects dated_record loader_fields))
      as (l & h' & Hrun & _ & Hm).
    destruct (clean_metadata_run IsoSample.parse IsoSample.isoformat
                sample_loc fields_loc (two_objects dated_record loader_fields))
      as (h'' & Hrun' & _ & Hk).
    unfold sample_callback, normalizer_callback in Hrun.
    rewrite Hrun' in Hrun. injection Hrun as <- <-.
    apply (f_equal (fun d : dict => d !! "updated_at")) in Hm.
    rewrite Hk in Hm. vm_compute in Hm. discriminate Hm.
Qed.

(** C3, amended: each callback returns the metadata mapping it was handed,
    updated in place; every other object of the store, and so the record
    when it is a different object, is left as it was; and the contents of
    the returned mapping are determined by the contents of the two
    arguments. *)
Theorem normalizer_updates_metadata_in_place {datetime : Type}
  (parse_iso : string -> option datetime) (isoformat : datetime -> string)
  (n : normalizer) (r m : loc) (h : heap) :
  exists h',
    normalizer_callback parse_iso isoformat n r m h = (Return m, h') /\
    (forall l, l <> m -> h' l = h l) /\
    (forall g, g r = h r -> g m = h m ->
       exists g', normalizer_callback parse_iso isoformat n r m g
                  = (Return m, g') /\ g' m = h' m).
Proof.
  destruct n; cbn.
  - destruct (metadata_func_run parse_iso isoformat r m h)
      as (h' & Hrun & Hframe & Hk).
    exists h'. split; [done|]. split; [done|].
    intros g Hr Hm.
    destruct (metadata_func_run parse_iso isoformat r m g)
      as (g' & Hrun' & _ & Hk').
    exists g'. split; [done|].
    apply map_eq. intros k. by rewrite Hk, Hk', Hr, Hm.
  - destruct (clean_metadata_run parse_iso isoformat r m h)
      as (h' & Hrun & Hframe & Hk).
    exists h'. split; [done|]. split; [done|].
    intros g Hr Hm.
    destruct (clean_metadata_run parse_iso isoformat r m g)
      as (g' & Hrun' & _ & Hk').
    exists g'. split; [done|].
    apply map_eq. intros k. by rewrite Hk, Hk', Hr, Hm.
Qed.

Lemma normalizer_updates_metadata_in_place_witness :
  sample_loc <> fields_loc
  /\ exists h',
       sample_callback MetadataFunc sample_loc fields_loc
         (two_objects dated_record loader_fields) = (Return fields_loc, h')
       /\ h' sample_loc = dated_record.
Proof.
  assert (Hne : sample_loc <> fields_loc) by discriminate.
  split; [exact Hne|].
  destruct (normalizer_updates_metadata_in_place IsoSample.parse
              IsoSample.isoformat MetadataFunc sample_loc fields_loc
              (two_objects dated_record loader_fields))
    as (h' & Hrun & Hframe & _).
  exists h'. split; [exact Hrun|].
  rewrite (Hframe sample_loc Hne). reflexivity.
Defined.

(** C9: [clean_metadata] returns the mapping it was handed with every entry
    other than [updated_at] exactly as received; in particular the entries
    [name], [summary], [url] and [category] are neither added nor changed. *)
Theorem clean_metadata_only_updated_at {datetime : Type}
  (parse_iso : string -> option datetime) (isoformat : datetime -> string)
  (r m : loc) (h : heap) :
  exists h',
    clean_metadata parse_iso isoformat r m h = (Return m, h') /\
    (forall k, k <> "updated_at" -> h' m !! k = h m !! k) /\
    (forall k, defaulted_key k -> h' m !! k = h m !! k).
Proof.
  destruct (clean_metadata_run parse_iso isoformat r m h)
    as (h' & Hrun & _ & Hk).
  exists h'. split; [done|].
  assert (Hother : forall k, k <> "updated_at" -> h' m !! k = h m !! k).
  { intros k Hne. by rewrite Hk, decide_False by done. }
  split; [exact Hother|].
  intros k Hkey. apply Hother.
  intros ->. unfold defaulted_key in Hkey. intuition congruence.
Qed.

Lemma clean_metadata_only_updated_at_witness :
  "seq_num" <> "updated_at"
  /\ exists h',
       clean_metadata IsoSample.parse IsoSample.isoformat sample_loc fields_loc
         (two_objects undated_record loader_fields) = (Return fields_loc, h')
       /\ h' fields_loc !! "seq_num" = Some (VInt 1)
       /\ h' fields_loc !! "name" = None.
Proof.
  assert (Hne : "seq_num" <> "updated_at") by discriminate.
  split; [exact Hne|].
  destruct (clean_metadata_only_updated_at IsoSample.parse IsoSample.isoformat
              sample_loc fields_loc (two_objects undated_record loader_fields))
    as (h' & Hrun & Hother & Hkeys).
  exists h'. split; [exact Hrun|]. split.
  - rewrite (Hother "seq_num" Hne). vm_compute. reflexivity.
  - rewrite (Hkeys "name"); [vm_compute; reflexivity|].
    unfold defaulted_key. left. reflexivity.
Defined.

(** ** The loader *)

Section LoaderFacts.

Context {datetime : Type}.
Variable parse_iso : string -> option datetime.
Variable isoformat : datetime -> string.
Variable file_path : string.

(** Either callback returns the mapping it was handed, and leaves in it
    every entry that is not one of the five it may write. *)
Lemma normalizer_callback_run n r m h :
  exists h',
    normalizer_callback parse_iso isoformat n r m h = (Return m, h') /\
    (forall k, k <> "updated_at" -> ~ defaulted_key k ->
       h' m !! k = h m !! k).
Proof.
  destruct n; cbn.
  - destruct (metadata_func_run parse_iso isoformat r m h)
      as (h' & Hrun & _ & Hk).
    exists h'. split; [done|]. intros k Hne Hnk.
    by rewrite Hk, !decide_False by done.
  - destruct (clean_metadata_run parse_iso isoformat r m h)
      as (h' & Hrun & _ & Hk).
    exists h'. split; [done|]. intros k Hne Hnk.
    by rewrite Hk, decide_False by done.
Qed.

Lemma call_callback_run n sample fields :
  exists md,
    call_callback (normalizer_callback parse_iso isoformat n) sample fields
      = Return md /\
    (forall k, k <> "updated_at" -> ~ defaulted_key k ->
       md !! k = fields !! k).
Proof.
  unfold call_callback.
  destruct (normalizer_callback_run n sample_loc fields_loc
              (two_objects sample fields)) as (h' & -> & Hk).
  exists (h' fields_loc). split; [done|].
  intros k Hne Hnk. rewrite Hk by done.
  unfold two_objects. by rewrite heap_set_eq.
Qed.

Lemma get_metadata_seq_num n sample i :
  exists md,
    _get_metadata file_path (normalizer_callback parse_iso isoformat n)
      sample i = Return md /\
    md !! "seq_num" = Some (VInt (Z.of_nat i)) /\
    md !! "source" = Some (VStr file_path).
Proof.
  unfold _get_metadata.
  destruct (call_callback_run n sample
              (<["seq_num" := VInt (Z.of_nat i)]>
                 (<["source" := VStr file_path]> ∅)))
    as (md & -> & Hk).
  exists md. split; [done|].
  rewrite !Hk; [done|done|..|done|].
  all: unfold defaulted_key; intuition congruence.
Qed.

Lemma parse_from_run n data : forall i,
  Forall has_text data ->
  exists docs,
    _parse_from file_path (normalizer_callback parse_iso isoformat n) i data
      = Return docs /\
    length docs = length data /\
    forall j sample d, data !! j = Some sample -> docs !! j = Some d ->
      sample !! "content" = Some (VStr (page_content d)) /\
      _get_metadata file_path (normalizer_callback parse_iso isoformat n)
        sample (i + j) = Return (metadata d) /\
      seq_num d = Some (VInt (Z.of_nat (i + j))).
Proof.
  induction data as [|sample rest IH]; intros i Htext.
  - exists []. by split; [|split].
  - apply Forall_cons in Htext as [[text Hcontent] Hrest].
    destruct (IH (S i) Hrest) as (docs & Hdocs & Hlen & Hall).
    destruct (get_metadata_seq_num n sample i) as (md & Hmd & Hseq & _).
    exists ({| page_content := text; metadata := md |} :: docs).
    split; [|split].
    + cbn. unfold _get_text. rewrite Hcontent. cbn. rewrite Hmd. cbn.
      by rewrite Hdocs.
    + cbn. by rewrite Hlen.
    + intros [|j] sample' d; cbn.
      * intros [= <-] [= <-]. cbn. rewrite Nat.add_0_r. done.
      * intros Hs Hd. replace (i + S j) with (S i + j) by lia. eauto.
Qed.

Lemma parse_from_raises (f : callback) data : forall i sample,
  sample ∈ data ->
  sample !! "content" = None ->
  exists e, _parse_from file_path f i data = Raise e.
Proof.
  induction data as [|first rest IH]; intros i sample Hin Hnone.
  - by apply elem_of_nil in Hin.
  - cbn. apply elem_of_cons in Hin as [<-|Hin].
    + unfold _get_text. rewrite Hnone. cbn. eauto.
    + destruct (_get_text first); cbn; [|eauto].
      destruct (_get_metadata file_path f first i); cbn; [|eauto].
      destruct (IH (S i) sample Hin Hnone) as [e ->]. cbn. eauto.
Qed.

Lemma load_run n data :
  data <> [] ->
  Forall has_text data ->
  load file_path (normalizer_callback parse_iso isoformat n) data
  = _parse_from file_path (normalizer_callback parse_iso isoformat n) 1 data.
Proof.
  destruct data as [|first rest]; [done|]. intros _ Htext.
  apply Forall_cons in Htext as [[text Hcontent] _].
  unfold load, _validate_content_key, _validate_metadata_func.
  rewrite Hcontent. cbn -[_parse_from].
  by destruct (call_callback_run n first ∅) as (md & -> & _).
Qed.

Lemma load_raises (f : callback) data sample :
  sample ∈ data ->
  sample !! "content" = None ->
  exists e, load file_path f data = Raise e.
Proof.
  intros Hin Hnone. destruct data as [|first rest].
  - by apply elem_of_nil in Hin.
  - unfold load.
    destruct (_validate_content_key first); cbn -[_parse_from]; [|eauto].
    destruct (_validate_metadata_func f first); cbn -[_parse_from]; [|eauto].
    by apply parse_from_raises with sample.
Qed.

End LoaderFacts.

(** C2, as stated, fails: a record whose text is cut into several chunks
    yields passages that all carry the same [seq_num]. *)
Lemma seq_num_unique_within_record_counterexample :
  ~ seq_num_unique_within_record "temp.json" (sample_callback MetadataFunc)
      (window_splitter 8 4).
Proof.
  intros Hunique.
  eapply (Hunique [dated_record] _ 0 _ 0 1 _ _).
  - vm_compute. reflexivity.
  - reflexivity.
  - vm_compute. reflexivity.
  - vm_compute. reflexivity.
  - discriminate.
  - vm_compute. reflexivity.
Qed.

(** C2, amended: when every record has a text, the load returns one document
    per record, in order, and the passages are the chunks of these documents
    in order; every passage cut from the record at position [i] carries one
    chunk of that record's text, a copy of the mapping the callback produced
    for the record, and in it the [seq_num] the loader gave the record, which
    is its 1-based position [i + 1] in the file: the number is the same for
    all passages of a record and tells records apart, not passages. *)
Theorem passages_carry_record_seq_num {datetime : Type}
  (parse_iso : string -> option datetime) (isoformat : datetime -> string)
  (file_path : string) (split_text : string -> list string)
  (n : normalizer) (data : list dict) :
  data <> [] ->
  Forall has_text data ->
  exists docs,
    load file_path (normalizer_callback parse_iso isoformat n) data
      = Return docs /\
    load_and_split file_path (normalizer_callback parse_iso isoformat n)
      split_text data = Return (split_documents split_text docs) /\
    length docs = length data /\
    forall i sample d, data !! i = Some sample -> docs !! i = Some d ->
      sample !! "content" = Some (VStr (page_content d)) /\
      _get_metadata file_path (normalizer_callback parse_iso isoformat n)
        sample (S i) = Return (metadata d) /\
      forall p, p ∈ split_document split_text d ->
        page_content p ∈ split_text (page_content d) /\
        metadata p = metadata d /\
        seq_num p = Some (VInt (Z.of_nat (S i))).
Proof.
  intros Hne Htext.
  destruct (parse_from_run parse_iso isoformat file_path n data 1 Htext)
    as (docs & Hdocs & Hlen & Hall).
  assert (Hload : load file_path (normalizer_callback parse_iso isoformat n)
                    data = Return docs)
    by (by rewrite load_run).
  exists docs. split; [done|]. split; [|split; [done|]].
  - unfold load_and_split. by rewrite Hload.
  - intros i sample d Hs Hd.
    destruct (Hall i sample d Hs Hd) as (Hcontent & Hmd & Hseq).
    split; [done|]. split; [done|].
    intros p Hp. unfold split_document in Hp.
    apply list_elem_of_fmap in Hp as (chunk & -> & Hchunk).
    done.
Qed.

Lemma passages_carry_record_seq_num_witness :
  [dated_record] <> []
  /\ Forall has_text [dated_record]
  /\ exists docs,
       load_and_split "temp.json" (sample_callback MetadataFunc)
         (window_splitter 8 4) [dated_record]
         = Return (split_documents (window_splitter 8 4) docs)
       /\ length docs = 1.
Proof.
  assert (Hne : [dated_record] <> []) by discriminate.
  assert (Htext : Forall has_text [dated_record]).
  { constructor; [|constructor].
    exists "Effective: March 2020". vm_compute. reflexivity. }
  split; [exact Hne|]. split; [exact Htext|].
  destruct (passages_carry_record_seq_num IsoSample.parse IsoSample.isoformat
              "temp.json" (window_splitter 8 4) MetadataFunc [dated_record]
              Hne Htext)
    as (docs & _ & Hsplit & Hlen & _).
  exists docs. split; [exact Hsplit | exact Hlen].
Defined.

(** C6, as stated, fails: a record without a [content] field makes the load
    raise. *)
Lemma textless_record_skipped_counterexample :
  ~ textless_record_skipped "temp.json" (sample_callback MetadataFunc)
      (window_splitter 8 4).
Proof.
  intros Hskip.
  destruct (Hskip [dated_record; textless_record] 1 textless_record)
    as (docs & Hload & _).
  - reflexivity.
  - left. vm_compute. reflexivity.
  - vm_compute in Hload. discriminate Hload.
Qed.

(** C6, amended: a record without a [content] field makes the load raise,
    and no passage is returned for any record; a record whose [content] is
    the empty string, in a file whose records all have a text, gets a
    document like every other record, and yields no passage when the
    splitter makes no chunk of the empty text. *)
Theorem textless_record_outcome {datetime : Type}
  (parse_iso : string -> option datetime) (isoformat : datetime -> string)
  (file_path : string) (split_text : string -> list string)
  (n : normalizer) (data : list dict) (i : nat) (sample : dict) :
  data !! i = Some sample ->
  (sample !! "content" = None ->
   exists e,
     load file_path (normalizer_callback parse_iso isoformat n) data
       = Raise e /\
     load_and_split file_path (normalizer_callback parse_iso isoformat n)
       split_text data = Raise e)
  /\
  (sample !! "content" = Some (VStr "") ->
   split_text "" = [] ->
   Forall has_text data ->
   exists docs d,
     load file_path (normalizer_callback parse_iso isoformat n) data
       = Return docs /\
     load_and_split file_path (normalizer_callback parse_iso isoformat n)
       split_text data = Return (split_documents split_text docs) /\
     length docs = length data /\
     docs !! i = Some d /\
     split_document split_text d = []).
Proof.
  intros Hi. split.
  - intros Hnone.
    destruct (load_raises file_path (normalizer_callback parse_iso isoformat n)
                data sample) as [e He]; [|done|].
    { apply list_elem_of_lookup. eauto. }
    exists e. split; [done|]. unfold load_and_split. by rewrite He.
  - intros Hempty Hsplit Htext.
    assert (Hne : data <> []) by (intros ->; done).
    destruct (parse_from_run parse_iso isoformat file_path n data 1 Htext)
      as (docs & Hdocs & Hlen & Hall).
    assert (Hload : load file_path (normalizer_callback parse_iso isoformat n)
                      data = Return docs)
      by (by rewrite load_run).
    destruct (lookup_lt_is_Some_2 docs i) as [d Hd].
    { rewrite Hlen. apply lookup_lt_is_Some_1. eauto. }
    exists docs, d. split; [done|]. split; [|split; [done|split; [done|]]].
    + unfold load_and_split. by rewrite Hload.
    + destruct (Hall i sample d Hi Hd) as (Hcontent & _).
      rewrite Hempty in Hcontent. injection Hcontent as Hcontent.
      unfold split_document. by rewrite <- Hcontent, Hsplit.
Qed.

Lemma textless_record_outcome_witness :
  [dated_record; textless_record] !! 1 = Some textless_record
  /\ textless_record !! "content" = None
  /\ (exists e,
        load_and_split "temp.json" (sample_callback MetadataFunc)
          (window_splitter 8 4) [dated_record; textless_record] = Raise e)
  /\ [dated_record; empty_text_record] !! 1 = Some empty_text_record
  /\ empty_text_record !! "content" = Some (VStr "")
  /\ window_splitter 8 4 "" = []
  /\ Forall has_text [dated_record; empty_text_record]
  /\ (exists docs d,
        load "temp.json" (sample_callback MetadataFunc)
          [dated_record; empty_text_record] = Return docs
        /\ length docs = 2
        /\ docs !! 1 = Some d
        /\ split_document (window_splitter 8 4) d = []).
Proof.
  assert (H1 : [dated_record; textless_record] !! 1 = Some textless_record)
    by reflexivity.
  assert (H2 : textless_record !! "content" = None)
    by (vm_compute; reflexivity).
  assert (H3 : [dated_record; empty_text_record] !! 1 = Some empty_text_record)
    by reflexivity.
  assert (H4 : empty_text_record !! "content" = Some (VStr ""))
    by (vm_compute; reflexivity).
  assert (H5 : window_splitter 8 4 "" = []) by reflexivity.
  assert (H6 : Forall has_text [dated_record; empty_text_record]).
  { constructor; [|constructor; [|constructor]].
    - exists "Effective: March 2020". vm_compute. reflexivity.
    - exists "". vm_compute. reflexivity. }
  destruct (textless_record_outcome IsoSample.parse IsoSample.isoformat
              "temp.json" (window_splitter 8 4) MetadataFunc
              [dated_record; textless_record] 1 textless_record H1)
    as [Hraise _].
  destruct (Hraise H2) as (e & _ & He).
  destruct (textless_record_outcome IsoSample.parse IsoSample.isoformat
              "temp.json" (window_splitter 8 4) MetadataFunc
              [dated_record; empty_text_record] 1 empty_text_record H3)
    as [_ Hskip].
  destruct (Hskip H4 H5 H6) as (docs & d & Hload & _ & Hlen & Hd & Hnil).
  split; [exact H1|]. split; [exact H2|].
  split; [exists e; exact He|].
  split; [exact H3|]. split; [exact H4|]. split; [exact H5|].
  split; [exact H6|].
  exists docs, d. split; [exact Hload|]. split; [exact Hlen|].
  split; [exact Hd | exact Hnil].
Defined.

(** The loader of cell 19, run on records with the recorded fields and one
    chunk of text each, gives the three mappings that cell 22 printed: the
    records numbered 1, 2 and 3. *)
Example recorded_run :
  exists passages,
    load_and_split recorded_source (sample_callback MetadataFunc)
      (window_splitter 800 400) recorded_records = Return passages
    /\ map metadata passages = recorded_output.
Proof. eexists. split; vm_compute; reflexivity. Qed.

(** ** The context assembler *)

Lemma string_app_assoc (s1 s2 s3 : string) :
  (s1 +:+ s2) +:+ s3 = s1 +:+ s2 +:+ s3.
Proof.
  induction s1 as [|c s1 IH]; [done|].
  change (String c ((s1 +:+ s2) +:+ s3) = String c (s1 +:+ s2 +:+ s3)).
  by rewrite IH.
Qed.

Lemma str_join_cons separator part rest :
  rest <> [] ->
  str_join separator (part :: rest)
  = part +:+ separator +:+ str_join separator rest.
Proof. by destruct rest. Qed.

Lemma str_join_app separator parts1 parts2 :
  parts1 <> [] -> parts2 <> [] ->
  str_join separator (parts1 ++ parts2)
  = str_join separator parts1 +:+ separator +:+ str_join separator parts2.
Proof.
  induction parts1 as [|part rest IH]; intros Hne1 Hne2; [done|].
  destruct rest as [|part' rest].
  - cbn [app]. by rewrite str_join_cons.
  - rewrite <- app_comm_cons, !str_join_cons by done.
    rewrite IH by done. by rewrite !string_app_assoc.
Qed.

Section AssemblerFacts.

Context {prompt : Type}.
Variable format_document : Document -> prompt -> outcome string.
Variable document_prompt : prompt.

Lemma format_each_app docs1 docs2 texts1 texts2 :
  format_each format_document docs1 document_prompt = Return texts1 ->
  format_each format_document docs2 document_prompt = Return texts2 ->
  format_each format_document (docs1 ++ docs2) document_prompt
  = Return (texts1 ++ texts2).
Proof.
  revert texts1. induction docs1 as [|doc rest IH]; intros texts1 H1 H2.
  - cbn in H1. by injection H1 as <-.
  - cbn in *. destruct (format_document doc document_prompt); [|done].
    cbn in *. destruct (format_each format_document rest document_prompt)
      as [texts|]; [|done].
    cbn in *. injection H1 as <-. by rewrite (IH texts eq_refl H2).
Qed.

Lemma format_each_length docs texts :
  format_each format_document docs document_prompt = Return texts ->
  length texts = length docs.
Proof.
  revert texts. induction docs as [|doc rest IH]; intros texts H.
  - cbn in H. by injection H as <-.
  - cbn in H. destruct (format_document doc document_prompt); [|done].
    cbn in H. destruct (format_each format_document rest document_prompt)
      as [texts'|]; [|done].
    cbn in H. injection H as <-. cbn. by rewrite (IH texts').
Qed.

End AssemblerFacts.

(** C7: the assembled context of one passage is its rendering, the context
    of two non-empty sequences of passages, one after the other, is the
    context of the first, the separator, then the context of the second; and
    when the template renders the passage named A with text x as
    [SOURCE: A\nx] and the passage named B with text y as [SOURCE: B\ny],
    the context of the two, with a separator of two newlines, is
    [SOURCE: A\nx\n\nSOURCE: B\ny]. *)
Theorem combine_documents_joins_in_order {prompt : Type}
  (format_document : Document -> prompt -> outcome string)
  (document_prompt : prompt) (separator : string) :
  (forall doc,
     _combine_documents format_document [doc] document_prompt separator
     = format_document doc document_prompt)
  /\
  (forall docs1 docs2 context1 context2,
     docs1 <> [] -> docs2 <> [] ->
     _combine_documents format_document docs1 document_prompt separator
       = Return context1 ->
     _combine_documents format_document docs2 document_prompt separator
       = Return context2 ->
     _combine_documents format_document (docs1 ++ docs2) document_prompt
       separator = Return (context1 +:+ separator +:+ context2))
  /\
  (format_document (passage "A" "x") document_prompt
     = Return ("SOURCE: A" +:+ newline +:+ "x") ->
   format_document (passage "B" "y") document_prompt
     = Return ("SOURCE: B" +:+ newline +:+ "y") ->
   _combine_documents format_document [passage "A" "x"; passage "B" "y"]
     document_prompt (newline +:+ newline) = Return two_passage_context).
Proof.
  split; [|split].
  - intros doc. unfold _combine_documents. cbn.
    by destruct (format_document doc document_prompt).
  - intros docs1 docs2 context1 context2 Hne1 Hne2 H1 H2.
    unfold _combine_documents in *.
    destruct (format_each format_document docs1 document_prompt)
      as [texts1|] eqn:E1; [|done].
    destruct (format_each format_document docs2 document_prompt)
      as [texts2|] eqn:E2; [|done].
    cbn in H1, H2. injection H1 as <-. injection H2 as <-.
    rewrite (format_each_app _ _ _ _ _ _ E1 E2). cbn.
    rewrite str_join_app; [done|..].
    + intros ->. apply format_each_length in E1. by destruct docs1.
    + intros ->. apply format_each_length in E2. by destruct docs2.
  - intros HA HB. unfold _combine_documents. cbn. by rewrite HA, HB.
Qed.

Lemma combine_documents_joins_in_order_witness :
  TemplateSample.format_document (passage "A" "x") source_template
    = Return ("SOURCE: A" +:+ newline +:+ "x")
  /\ TemplateSample.format_document (passage "B" "y") source_template
     = Return ("SOURCE: B" +:+ newline +:+ "y")
  /\ _combine_documents TemplateSample.format_document
       [passage "A" "x"; passage "B" "y"] source_template
       (newline +:+ newline) = Return two_passage_context.
Proof.
  assert (HA : TemplateSample.format_document (passage "A" "x") source_template
               = Return ("SOURCE: A" +:+ newline +:+ "x"))
    by (vm_compute; reflexivity).
  assert (HB : TemplateSample.format_document (passage "B" "y") source_template
               = Return ("SOURCE: B" +:+ newline +:+ "y"))
    by (vm_compute; reflexivity).
  split; [exact HA|]. split; [exact HB|].
  destruct (combine_documents_joins_in_order TemplateSample.format_document
              source_template (newline +:+ newline)) as (_ & _ & Hexample).
  exact (Hexample HA HB).
Defined.

(** C8: on an empty sequence of passages the assembler returns the empty
    string, whatever the template and the separator, and does not raise. *)
Theorem combine_documents_empty {prompt : Type}
  (format_document : Document -> prompt -> outcome string)
  (document_prompt : prompt) (document_separator : string) :
  _combine_documents format_document [] document_prompt document_separator
  = Return "".
Proof. reflexivity. Qed.

(** * Further properties *)

(** ** The record normalizers, called again and one after the other *)

(** X1: calling either callback a second time, with the same record and the
    mapping the first call updated, changes nothing, when record and
    metadata are different objects. *)
Theorem normalizer_idempotent {datetime : Type}
  (parse_iso : string -> option datetime) (isoformat : datetime -> string)
  (n : normalizer) (r m : loc) (h : heap) :
  r <> m ->
  exists h1 h2,
    normalizer_callback parse_iso isoformat n r m h = (Return m, h1) /\
    normalizer_callback parse_iso isoformat n r m h1 = (Return m, h2) /\
    forall l, h2 l = h1 l.
Proof.
  intros Hne. destruct n; cbn.
  - destruct (metadata_func_run parse_iso isoformat r m h)
      as (h1 & Hrun1 & Hf1 & Hk1).
    destruct (metadata_func_run parse_iso isoformat r m h1)
      as (h2 & Hrun2 & Hf2 & Hk2).
    exists h1, h2. split; [done|]. split; [done|].
    intros l. destruct (decide (l = m)) as [->|Hl]; [|by apply Hf2].
    apply map_eq. intros k. rewrite Hk2, (Hf1 r Hne), Hk1.
    by repeat case_decide.
  - destruct (clean_metadata_run parse_iso isoformat r m h)
      as (h1 & Hrun1 & Hf1 & Hk1).
    destruct (clean_metadata_run parse_iso isoformat r m h1)
      as (h2 & Hrun2 & Hf2 & Hk2).
    exists h1, h2. split; [done|]. split; [done|].
    intros l. destruct (decide (l = m)) as [->|Hl]; [|by apply Hf2].
    apply map_eq. intros k. rewrite Hk2, (Hf1 r Hne).
    case_decide; [|done]. subst k. rewrite Hk1, decide_True by done.
    by destruct (h r !! "updated_at").
Qed.

Lemma normalizer_idempotent_witness :
  sample_loc <> fields_loc
  /\ exists h1 h2,
       sample_callback CleanMetadata sample_loc fields_loc
         (two_objects undated_record loader_fields) = (Return fields_loc, h1)
       /\ sample_callback CleanMetadata sample_loc fields_loc h1
          = (Return fields_loc, h2)
       /\ h2 fields_loc = h1 fields_loc.
Proof.
  assert (Hne : sample_loc <> fields_loc) by discriminate.
  split; [exact Hne|].
  destruct (normalizer_idempotent IsoSample.parse IsoSample.isoformat
              CleanMetadata sample_loc fields_loc
              (two_objects undated_record loader_fields) Hne)
    as (h1 & h2 & Hrun1 & Hrun2 & Hsame).
  exists h1, h2. split; [exact Hrun1|]. split; [exact Hrun2|].
  exact (Hsame fields_loc).
Defined.

(** X2: what [metadata_func] leaves in the metadata mapping does not depend
    on what the mapping held before under [name], [summary], [url],
    [category] and [updated_at]: two calls with records of the same contents
    and mappings that agree on every other key leave the same contents. *)
Theorem metadata_func_overwrites {datetime : Type}
  (parse_iso : string -> option datetime) (isoformat : datetime -> string)
  (r m : loc) (h g : heap) :
  h r = g r ->
  (forall k, k <> "updated_at" -> ~ defaulted_key k -> h m !! k = g m !! k) ->
  exists h' g',
    metadata_func parse_iso isoformat r m h = (Return m, h') /\
    metadata_func parse_iso isoformat r m g = (Return m, g') /\
    h' m = g' m.
Proof.
  intros Hr Hm.
  destruct (metadata_func_run parse_iso isoformat r m h)
    as (h' & Hrun & _ & Hk).
  destruct (metadata_func_run parse_iso isoformat r m g)
    as (g' & Hrun' & _ & Hk').
  exists h', g'. split; [done|]. split; [done|].
  apply map_eq. intros k. rewrite Hk, Hk', Hr.
  repeat case_decide; try done. by apply Hm.
Qed.

Lemma metadata_func_overwrites_witness :
  two_objects dated_record loader_fields sample_loc
    = two_objects dated_record stale_fields sample_loc
  /\ (forall k, k <> "updated_at" -> ~ defaulted_key k ->
        two_objects dated_record loader_fields fields_loc !! k
        = two_objects dated_record stale_fields fields_loc !! k)
  /\ exists h' g',
       metadata_func IsoSample.parse IsoSample.isoformat sample_loc fields_loc
         (two_objects dated_record loader_fields) = (Return fields_loc, h')
       /\ metadata_func IsoSample.parse IsoSample.isoformat sample_loc
            fields_loc (two_objects dated_record stale_fields)
          = (Return fields_loc, g')
       /\ h' fields_loc = g' fields_loc.
Proof.
  assert (Hr : two_objects dated_record loader_fields sample_loc
               = two_objects dated_record stale_fields sample_loc)
    by reflexivity.
  assert (Hm : forall k, k <> "updated_at" -> ~ defaulted_key k ->
             two_objects dated_record loader_fields fields_loc !! k
             = two_objects dated_record stale_fields fields_loc !! k).
  { intros k Hua Hkey. unfold two_objects. rewrite !heap_set_eq.
    unfold loader_fields, stale_fields, dict_of. cbn.
    rewrite !lookup_insert. unfold defaulted_key in Hkey.
    repeat case_decide; try done; exfalso; intuition congruence. }
  split; [exact Hr|]. split; [exact Hm|].
  exact (metadata_func_overwrites IsoSample.parse IsoSample.isoformat
           sample_loc fields_loc (two_objects dated_record loader_fields)
           (two_objects dated_record stale_fields) Hr Hm).
Defined.

(** X3: [metadata_func] called after [clean_metadata], on the same record
    and metadata, leaves the store as [metadata_func] alone does, when record
    and metadata are different objects: it undoes the [None] that
    [clean_metadata] may have stored. *)
Theorem metadata_func_after_clean_metadata {datetime : Type}
  (parse_iso : string -> option datetime) (isoformat : datetime -> string)
  (r m : loc) (h : heap) :
  r <> m ->
  exists h1 h2 h3,
    clean_metadata parse_iso isoformat r m h = (Return m, h1) /\
    metadata_func parse_iso isoformat r m h1 = (Return m, h2) /\
    metadata_func parse_iso isoformat r m h = (Return m, h3) /\
    forall l, h2 l = h3 l.
Proof.
  intros Hne.
  destruct (clean_metadata_run parse_iso isoformat r m h)
    as (h1 & Hrun1 & Hf1 & Hk1).
  destruct (metadata_func_run parse_iso isoformat r m h1)
    as (h2 & Hrun2 & Hf2 & Hk2).
  destruct (metadata_func_run parse_iso isoformat r m h)
    as (h3 & Hrun3 & Hf3 & Hk3).
  exists h1, h2, h3. split; [done|]. split; [done|]. split; [done|].
  intros l. destruct (decide (l = m)) as [->|Hl].
  - apply map_eq. intros k. rewrite Hk2, Hk3, (Hf1 r Hne).
    repeat case_decide; try done. by rewrite Hk1, decide_False.
  - by rewrite Hf2, Hf1, Hf3.
Qed.

Lemma metadata_func_after_clean_metadata_witness :
  sample_loc <> fields_loc
  /\ exists h1 h2 h3,
       clean_metadata IsoSample.parse IsoSample.isoformat sample_loc fields_loc
         (two_objects undated_record loader_fields) = (Return fields_loc, h1)
       /\ metadata_func IsoSample.parse IsoSample.isoformat sample_loc
            fields_loc h1 = (Return fields_loc, h2)
       /\ metadata_func IsoSample.parse IsoSample.isoformat sample_loc
            fields_loc (two_objects undated_record loader_fields)
          = (Return fields_loc, h3)
       /\ h2 fields_loc = h3 fields_loc.
Proof.
  assert (Hne : sample_loc <> fields_loc) by discriminate.
  split; [exact Hne|].
  destruct (metadata_func_after_clean_metadata IsoSample.parse
              IsoSample.isoformat sample_loc fields_loc
              (two_objects undated_record loader_fields) Hne)
    as (h1 & h2 & h3 & H1 & H2 & H3 & Hsame).
  exists h1, h2, h3. split; [exact H1|]. split; [exact H2|].
  split; [exact H3|]. exact (Hsame fields_loc).
Defined.

(** X4: [clean_metadata] called after [metadata_func], on the same record
    and metadata (different objects), leaves the mapping as [metadata_func]
    left it exactly when the record has no [updated_at] or has one that
    parses; otherwise it puts [updated_at] back, with [None]. *)
Theorem clean_metadata_after_metadata_func {datetime : Type}
  (parse_iso : string -> option datetime) (isoformat : datetime -> string)
  (r m : loc) (h : heap) :
  r <> m ->
  exists h1 h2,
    metadata_func parse_iso isoformat r m h = (Return m, h1) /\
    clean_metadata parse_iso isoformat r m h1 = (Return m, h2) /\
    (h2 m = h1 m <->
     h r !! "updated_at" = None \/ raw_parses parse_iso (h r)) /\
    (h2 m <> h1 m ->
     h1 m !! "updated_at" = None /\ h2 m !! "updated_at" = Some VNone).
Proof.
  intros Hne.
  destruct (metadata_func_run parse_iso isoformat r m h)
    as (h1 & Hrun1 & Hf1 & Hk1).
  destruct (clean_metadata_run parse_iso isoformat r m h1)
    as (h2 & Hrun2 & Hf2 & Hk2).
  exists h1, h2. split; [done|]. split; [done|].
  assert (Hua : h2 m !! "updated_at" =
                match h r !! "updated_at" with
                | Some raw => Some (match parsed parse_iso raw with
                                    | Some d => VStr (isoformat d)
                                    | None => VNone
                                    end)
                | None => h1 m !! "updated_at"
                end)
    by (by rewrite Hk2, decide_True, (Hf1 r Hne)).
  assert (Hua1 : h1 m !! "updated_at" =
                 (fun d => VStr (isoformat d))
                   <$> parsed parse_iso (default (VStr "") (h r !! "updated_at")))
    by (by rewrite Hk1, decide_True).
  assert (Hother : forall k, k <> "updated_at" -> h2 m !! k = h1 m !! k)
    by (intros k Hk; by rewrite Hk2, decide_False).
  assert (Hiff : h2 m = h1 m <->
                 h r !! "updated_at" = None \/ raw_parses parse_iso (h r)).
  { split.
    - intros Heq. rewrite Heq in Hua. rewrite Hua1 in Hua.
      destruct (h r !! "updated_at") as [raw|] eqn:Hraw; [|by left]. right.
      cbn in Hua. destruct raw; cbn in Hua; try done.
      destruct (parse_iso s) as [d|] eqn:Hparse; [|done].
      by exists s, d.
    - intros Hcase. apply map_eq. intros k.
      destruct (decide (k = "updated_at")) as [->|Hk]; [|by apply Hother].
      rewrite Hua, Hua1. destruct Hcase as [->|(s & d & -> & Hparse)]; [done|].
      cbn. by rewrite Hparse. }
  split; [exact Hiff|].
  intros Hdiff.
  destruct (h r !! "updated_at") as [raw|] eqn:Hraw.
  - destruct (parsed parse_iso raw) as [d|] eqn:Hparse.
    + exfalso. apply Hdiff, Hiff. right.
      destruct raw; cbn in Hparse; try done. by exists s, d.
    + split; [|done]. rewrite Hua1. cbn. by rewrite Hparse.
  - exfalso. apply Hdiff, Hiff. by left.
Qed.

Lemma clean_metadata_after_metadata_func_witness :
  sample_loc <> fields_loc
  /\ exists h1 h2,
       metadata_func IsoSample.parse IsoSample.isoformat sample_loc fields_loc
         (two_objects dated_record loader_fields) = (Return fields_loc, h1)
       /\ clean_metadata IsoSample.parse IsoSample.isoformat sample_loc
            fields_loc h1 = (Return fields_loc, h2)
       /\ h2 fields_loc = h1 fields_loc.
Proof.
  assert (Hne : sample_loc <> fields_loc) by discriminate.
  split; [exact Hne|].
  destruct (clean_metadata_after_metadata_func IsoSample.parse
              IsoSample.isoformat sample_loc fields_loc
              (two_objects dated_record loader_fields) Hne)
    as (h1 & h2 & H1 & H2 & Hiff & _).
  exists h1, h2. split; [exact H1|]. split; [exact H2|].
  apply Hiff. right. exists "2020-03-01".
  eexists. split; vm_compute; reflexivity.
Defined.

(** X5: handed the same record and a mapping without [updated_at], by a
    parser that rejects the empty string, the two callbacks produce the same
    [updated_at] entry exactly when the record has no [updated_at] or has one
    that parses; they differ on a record whose [updated_at] does not parse. *)
Theorem callbacks_agree_on_updated_at {datetime : Type}
  (parse_iso : string -> option datetime) (isoformat : datetime -> string)
  (r m : loc) (h : heap) :
  parse_iso "" = None ->
  h m !! "updated_at" = None ->
  exists md_func md_clean,
    produced (metadata_func parse_iso isoformat) r m h = Some md_func /\
    produced (clean_metadata parse_iso isoformat) r m h = Some md_clean /\
    (md_func !! "updated_at" = md_clean !! "updated_at" <->
     h r !! "updated_at" = None \/ raw_parses parse_iso (h r)).
Proof.
  intros Hempty Hfresh.
  destruct (metadata_func_run parse_iso isoformat r m h)
    as (h1 & Hrun1 & _ & Hk1).
  destruct (clean_metadata_run parse_iso isoformat r m h)
    as (h2 & Hrun2 & _ & Hk2).
  exists (h1 m), (h2 m).
  split; [by apply produced_run|]. split; [by apply produced_run|].
  rewrite Hk1, Hk2, !decide_True by done.
  destruct (h r !! "updated_at") as [raw|] eqn:Hraw; cbn.
  - split.
    + intros Heq. right. destruct raw; cbn in Heq; try done.
      destruct (parse_iso s) as [d|] eqn:Hparse; [|done]. by exists s, d.
    + intros [?|(s & d & Hs & Hparse)]; [done|].
      rewrite Hraw in Hs. injection Hs as ->. cbn. by rewrite Hparse.
  - rewrite Hempty, Hfresh. cbn. split; [by left | done].
Qed.

Lemma callbacks_agree_on_updated_at_witness :
  IsoSample.parse "" = None
  /\ two_objects undated_record loader_fields fields_loc !! "updated_at" = None
  /\ exists md_func md_clean,
       produced (metadata_func IsoSample.parse IsoSample.isoformat)
         sample_loc fields_loc (two_objects undated_record loader_fields)
         = Some md_func
       /\ produced (clean_metadata IsoSample.parse IsoSample.isoformat)
            sample_loc fields_loc (two_objects undated_record loader_fields)
          = Some md_clean
       /\ (md_func !! "updated_at" = md_clean !! "updated_at" ->
           raw_parses IsoSample.parse undated_record).
Proof.
  assert (Hempty : IsoSample.parse "" = None) by (vm_compute; reflexivity).
  assert (Hfresh : two_objects undated_record loader_fields fields_loc
                     !! "updated_at" = None) by (vm_compute; reflexivity).
  split; [exact Hempty|]. split; [exact Hfresh|].
  destruct (callbacks_agree_on_updated_at IsoSample.parse IsoSample.isoformat
              sample_loc fields_loc (two_objects undated_record loader_fields)
              Hempty Hfresh)
    as (md1 & md2 & H1 & H2 & Hiff).
  exists md1, md2. split; [exact H1|]. split; [exact H2|].
  intros Heq. destruct (proj1 Hiff Heq) as [Hnone|Hparses].
  - vm_compute in Hnone. discriminate Hnone.
  - exact Hparses.
Defined.

(** ** The context assembler: failures and size *)

Lemma string_length_app (s1 s2 : string) :
  String.length (s1 +:+ s2) = String.length s1 + String.length s2.
Proof.
  induction s1 as [|c s1 IH]; [done|].
  change (S (String.length (s1 +:+ s2))
          = S (String.length s1 + String.length s2)).
  by rewrite IH.
Qed.

Lemma str_join_length separator parts :
  String.length (str_join separator parts)
  = sum_list (map String.length parts)
    + (length parts - 1) * String.length separator.
Proof.
  induction parts as [|part rest IH]; [done|].
  destruct rest as [|part' rest].
  - cbn. unfold id. lia.
  - rewrite str_join_cons by done.
    rewrite !string_length_app, IH. cbn [map sum_list length Nat.sub].
    rewrite !Nat.sub_0_r. cbn [Nat.mul]. unfold id. lia.
Qed.

Section MoreAssemblerFacts.

Context {prompt : Type}.
Variable format_document : Document -> prompt -> outcome string.
Variable document_prompt : prompt.

Lemma format_each_returns docs :
  (exists texts,
     format_each format_document docs document_prompt = Return texts)
  <-> Forall (fun doc => exists text,
                format_document doc document_prompt = Return text) docs.
Proof.
  induction docs as [|doc rest IH]; cbn.
  - split; [constructor | eauto].
  - split.
    + intros [texts Htexts].
      destruct (format_document doc document_prompt) as [text|] eqn:Hdoc;
        [|done].
      cbn in Htexts.
      destruct (format_each format_document rest document_prompt)
        as [texts'|] eqn:Hrest; [|done].
      constructor; [by exists text|]. apply IH. by exists texts'.
    + intros Hall. apply Forall_cons in Hall as [[text ->] Hrest].
      apply IH in Hrest as [texts ->]. cbn. eauto.
Qed.

Lemma format_each_first_failure before doc after e :
  Forall (fun doc => exists text,
            format_document doc document_prompt = Return text) before ->
  format_document doc document_prompt = Raise e ->
  format_each format_document (before ++ doc :: after) document_prompt
  = Raise e.
Proof.
  intros Hbefore Hdoc. induction Hbefore as [|first rest [text Hfirst] _ IH].
  - cbn. by rewrite Hdoc.
  - cbn. rewrite Hfirst. cbn. by rewrite IH.
Qed.

Lemma format_each_Forall2 docs texts :
  format_each format_document docs document_prompt = Return texts ->
  Forall2 (fun doc text => format_document doc document_prompt = Return text)
          docs texts.
Proof.
  revert texts. induction docs as [|doc rest IH]; intros texts H; cbn in H.
  - injection H as <-. constructor.
  - destruct (format_document doc document_prompt) as [text|] eqn:Hdoc;
      [|done].
    cbn in H.
    destruct (format_each format_document rest document_prompt)
      as [texts'|]; [|done].
    cbn in H. injection H as <-. constructor; [done|]. by apply IH.
Qed.

End MoreAssemblerFacts.

(** X6: when a passage fails to render and all the passages before it
    render, the assembler raises the exception of that passage, whatever
    follows it: no partial context is returned. *)
Theorem combine_documents_first_failure {prompt : Type}
  (format_document : Document -> prompt -> outcome string)
  (document_prompt : prompt) (document_separator : string)
  (before after : list Document) (doc : Document) (e : exn) :
  Forall (fun doc => exists text,
            format_document doc document_prompt = Return text) before ->
  format_document doc document_prompt = Raise e ->
  _combine_documents format_document (before ++ doc :: after)
    document_prompt document_separator = Raise e.
Proof.
  intros Hbefore Hdoc. unfold _combine_documents.
  by rewrite (format_each_first_failure _ _ _ _ _ _ Hbefore Hdoc).
Qed.

Lemma combine_documents_first_failure_witness :
  Forall (fun doc => exists text,
            TemplateSample.format_document doc source_template = Return text)
         [passage "A" "x"]
  /\ TemplateSample.format_document nameless_passage source_template
     = Raise ValueError
  /\ _combine_documents TemplateSample.format_document
       ([passage "A" "x"] ++ nameless_passage :: [passage "B" "y"])
       source_template (newline +:+ newline) = Raise ValueError.
Proof.
  assert (Hbefore : Forall (fun doc => exists text,
             TemplateSample.format_document doc source_template = Return text)
             [passage "A" "x"]).
  { constructor; [|constructor]. eexists. vm_compute. reflexivity. }
  assert (Hdoc : TemplateSample.format_document nameless_passage source_template
                 = Raise ValueError) by (vm_compute; reflexivity).
  split; [exact Hbefore|]. split; [exact Hdoc|].
  exact (combine_documents_first_failure TemplateSample.format_document
           source_template (newline +:+ newline) [passage "A" "x"]
           [passage "B" "y"] nameless_passage ValueError Hbefore Hdoc).
Defined.

(** X7: the assembler returns a context exactly when every passage
    renders. *)
Theorem combine_documents_returns_iff {prompt : Type}
  (format_document : Document -> prompt -> outcome string)
  (document_prompt : prompt) (document_separator : string)
  (docs : list Document) :
  (exists context,
     _combine_documents format_document docs document_prompt
       document_separator = Return context)
  <-> Forall (fun doc => exists text,
                format_document doc document_prompt = Return text) docs.
Proof.
  rewrite <- format_each_returns. unfold _combine_documents. split.
  - intros [context H].
    destruct (format_each format_document docs document_prompt); [eauto|done].
  - intros [texts ->]. cbn. eauto.
Qed.

(** X8: the length of the assembled context is the sum of the lengths of
    the renderings plus one separator between each two neighbours: with [n]
    passages, [n - 1] separators, none before the first or after the last. *)
Theorem combine_documents_length {prompt : Type}
  (format_document : Document -> prompt -> outcome string)
  (document_prompt : prompt) (document_separator : string)
  (docs : list Document) (context : string) :
  _combine_documents format_document docs document_prompt document_separator
    = Return context ->
  exists texts,
    Forall2 (fun doc text =>
               format_document doc document_prompt = Return text) docs texts
    /\ String.length context
       = sum_list (map String.length texts)
         + (length docs - 1) * String.length document_separator.
Proof.
  unfold _combine_documents. intros H.
  destruct (format_each format_document docs document_prompt)
    as [texts|] eqn:Htexts; [|done].
  cbn in H. injection H as <-.
  exists texts. split; [by apply format_each_Forall2|].
  rewrite str_join_length.
  by rewrite (format_each_length _ _ _ _ Htexts).
Qed.

Lemma combine_documents_length_witness :
  _combine_documents TemplateSample.format_document
    [passage "A" "x"; passage "B" "y"] source_template (newline +:+ newline)
    = Return two_passage_context
  /\ exists texts,
       Forall2 (fun doc text =>
                  TemplateSample.format_document doc source_template
                  = Return text)
               [passage "A" "x"; passage "B" "y"] texts
       /\ String.length two_passage_context
          = sum_list (map String.length texts) + (2 - 1) * 2.
Proof.
  assert (H : _combine_documents TemplateSample.format_document
                [passage "A" "x"; passage "B" "y"] source_template
                (newline +:+ newline) = Return two_passage_context)
    by (vm_compute; reflexivity).
  split; [exact H|].
  exact (combine_documents_length TemplateSample.format_document
           source_template (newline +:+ newline)
           [passage "A" "x"; passage "B" "y"] two_passage_context H).
Defined.

(** ** The loader: when it returns, and what its passages carry *)

Section MoreLoaderFacts.

Context {datetime : Type}.
Variable parse_iso : string -> option datetime.
Variable isoformat : datetime -> string.
Variable file_path : string.

Lemma parse_from_has_text (f : callback) data : forall i docs,
  _parse_from file_path f i data = Return docs -> Forall has_text data.
Proof.
  induction data as [|sample rest IH]; intros i docs H; [constructor|].
  cbn in H. unfold _get_text in H.
  destruct (sample !! "content") as [[]|] eqn:Hcontent; try done.
  cbn in H. destruct (_get_metadata file_path f sample i); [|done].
  cbn in H. destruct (_parse_from file_path f (S i) rest) as [docs'|] eqn:Hrest;
    [|done].
  constructor; [by eexists|]. by apply (IH (S i) docs').
Qed.

Lemma load_has_text (f : callback) data docs :
  load file_path f data = Return docs -> data <> [] /\ Forall has_text data.
Proof.
  destruct data as [|first rest]; [done|]. unfold load. intros H.
  split; [done|].
  destruct (_validate_content_key first); [|done].
  destruct (_validate_metadata_func f first); [|done].
  by apply (parse_from_has_text f _ 1 docs).
Qed.

Lemma load_returns_inv n data docs :
  load file_path (normalizer_callback parse_iso isoformat n) data
    = Return docs ->
  length docs = length data /\
  forall j sample d, data !! j = Some sample -> docs !! j = Some d ->
    sample !! "content" = Some (VStr (page_content d)) /\
    _get_metadata file_path (normalizer_callback parse_iso isoformat n)
      sample (S j) = Return (metadata d) /\
    seq_num d = Some (VInt (Z.of_nat (S j))).
Proof.
  intros Hload. destruct (load_has_text _ _ _ Hload) as [Hne Htext].
  destruct (parse_from_run parse_iso isoformat file_path n data 1 Htext)
    as (docs' & Hdocs & Hlen & Hall).
  rewrite load_run, Hdocs in Hload by done. injection Hload as <-.
  done.
Qed.

Lemma two_objects_sample sample fields :
  two_objects sample fields sample_loc = sample.
Proof. unfold two_objects. by rewrite heap_set_ne, heap_set_eq. Qed.

Lemma two_objects_fields sample fields :
  two_objects sample fields fields_loc = fields.
Proof. unfold two_objects. by rewrite heap_set_eq. Qed.

Lemma loader_fields_lookup i k :
  (<["seq_num" := VInt (Z.of_nat i)]> (<["source" := VStr file_path]> ∅)
     : dict) !! k
  = if decide (k = "seq_num") then Some (VInt (Z.of_nat i))
    else if decide (k = "source") then Some (VStr file_path) else None.
Proof. rewrite !lookup_insert. by repeat case_decide. Qed.

Lemma get_metadata_metadata_func sample i md :
  _get_metadata file_path (metadata_func parse_iso isoformat) sample i
    = Return md ->
  forall k, md !! k =
    if decide (k = "updated_at")
    then (fun d => VStr (isoformat d))
           <$> parsed parse_iso (default (VStr "") (sample !! "updated_at"))
    else if decide (defaulted_key k)
         then Some (default (VStr "") (sample !! k))
         else if decide (k = "seq_num") then Some (VInt (Z.of_nat i))
              else if decide (k = "source") then Some (VStr file_path)
                   else None.
Proof.
  unfold _get_metadata, call_callback.
  destruct (metadata_func_run parse_iso isoformat sample_loc fields_loc
              (two_objects sample
                 (<["seq_num" := VInt (Z.of_nat i)]>
                    (<["source" := VStr file_path]> ∅))))
    as (h' & -> & _ & Hk).
  intros [= <-] k.
  by rewrite Hk, two_objects_sample, two_objects_fields, loader_fields_lookup.
Qed.

Lemma get_metadata_clean_metadata sample i md :
  _get_metadata file_path (clean_metadata parse_iso isoformat) sample i
    = Return md ->
  forall k, md !! k =
    if decide (k = "updated_at")
    then match sample !! "updated_at" with
         | Some raw => Some (match parsed parse_iso raw with
                             | Some d => VStr (isoformat d)
                             | None => VNone
                             end)
         | None => None
         end
    else if decide (k = "seq_num") then Some (VInt (Z.of_nat i))
         else if decide (k = "source") then Some (VStr file_path)
              else None.
Proof.
  unfold _get_metadata, call_callback.
  destruct (clean_metadata_run parse_iso isoformat sample_loc fields_loc
              (two_objects sample
                 (<["seq_num" := VInt (Z.of_nat i)]>
                    (<["source" := VStr file_path]> ∅))))
    as (h' & -> & _ & Hk).
  intros [= <-] k.
  rewrite Hk, two_objects_sample, two_objects_fields, !loader_fields_lookup.
  by repeat case_decide.
Qed.

End MoreLoaderFacts.


(** X10: passages cut from two different records carry different sequence
    numbers: [seq_num] tells the records of a file apart. *)
Theorem seq_num_identifies_record {datetime : Type}
  (parse_iso : string -> option datetime) (isoformat : datetime -> string)
  (file_path : string) (split_text : string -> list string)
  (n : normalizer) (data : list dict) (docs : list Document)
  (i j : nat) (d d' p q : Document) :
  load file_path (normalizer_callback parse_iso isoformat n) data
    = Return docs ->
  docs !! i = Some d ->
  docs !! j = Some d' ->
  p ∈ split_document split_text d ->
  q ∈ split_document split_text d' ->
  i <> j ->
  seq_num p <> seq_num q.
Proof.
  intros Hload Hd Hd' Hp Hq Hij.
  destruct (load_returns_inv parse_iso isoformat file_path n data docs Hload)
    as (Hlen & Hall).
  destruct (lookup_lt_is_Some_2 data i) as [sample Hs].
  { rewrite <- Hlen. apply lookup_lt_is_Some_1. eauto. }
  destruct (lookup_lt_is_Some_2 data j) as [sample' Hs'].
  { rewrite <- Hlen. apply lookup_lt_is_Some_1. eauto. }
  destruct (Hall i sample d Hs Hd) as (_ & _ & Hseq).
  destruct (Hall j sample' d' Hs' Hd') as (_ & _ & Hseq').
  unfold split_document in Hp, Hq.
  apply list_elem_of_fmap in Hp as (chunk & -> & _).
  apply list_elem_of_fmap in Hq as (chunk' & -> & _).
  unfold seq_num in *. cbn. rewrite Hseq, Hseq'.
  intros [= Heq]. lia.
Qed.

Lemma seq_num_identifies_record_witness :
  load "temp.json" (sample_callback MetadataFunc) [dated_record; dated_record]
    = Return [dated_document 1; dated_document 2]
  /\ dated_document 1 ∈ split_document (fun text => [text]) (dated_document 1)
  /\ dated_document 2 ∈ split_document (fun text => [text]) (dated_document 2)
  /\ 0 <> 1
  /\ seq_num (dated_document 1) <> seq_num (dated_document 2).
Proof.
  assert (Hload : load "temp.json" (sample_callback MetadataFunc)
                    [dated_record; dated_record]
                  = Return [dated_document 1; dated_document 2])
    by (vm_compute; reflexivity).
  assert (H1 : dated_document 1
               ∈ split_document (fun text => [text]) (dated_document 1))
    by (unfold split_document; cbn; constructor).
  assert (H2 : dated_document 2
               ∈ split_document (fun text => [text]) (dated_document 2))
    by (unfold split_document; cbn; constructor).
  assert (Hne : 0 <> 1) by discriminate.
  split; [exact Hload|]. split; [exact H1|]. split; [exact H2|].
  split; [exact Hne|].
  exact (seq_num_identifies_record IsoSample.parse IsoSample.isoformat
           "temp.json" (fun text => [text]) MetadataFunc
           [dated_record; dated_record]
           [dated_document 1; dated_document 2] 0 1
           (dated_document 1) (dated_document 2)
           (dated_document 1) (dated_document 2)
           Hload eq_refl eq_refl H1 H2 Hne).
Defined.

(** X11: with [metadata_func] as callback and a parser that rejects the
    empty string, the metadata of a loaded document has the keys [source],
    [seq_num], [name], [summary], [url] and [category], the key [updated_at]
    when the record's raw value parses, and no other key: the keys of the
    mappings printed in cell 22. *)
Theorem loaded_metadata_keys {datetime : Type}
  (parse_iso : string -> option datetime) (isoformat : datetime -> string)
  (file_path : string) (data : list dict) (docs : list Document)
  (i : nat) (sample : dict) (d : Document) (k : string) :
  parse_iso "" = None ->
  load file_path (metadata_func parse_iso isoformat) data = Return docs ->
  data !! i = Some sample ->
  docs !! i = Some d ->
  (is_Some (metadata d !! k) <->
   k = "source" \/ k = "seq_num" \/ defaulted_key k \/
   (k = "updated_at" /\ raw_parses parse_iso sample)).
Proof.
  intros Hempty Hload Hs Hd.
  destruct (load_returns_inv parse_iso isoformat file_path MetadataFunc
              data docs Hload) as (_ & Hall).
  destruct (Hall i sample d Hs Hd) as (_ & Hmd & _).
  rewrite (get_metadata_metadata_func _ _ _ _ _ _ Hmd k).
  unfold raw_parses, defaulted_key.
  repeat case_decide; subst.
  - split.
    + intros [v Hv]. do 3 right. split; [done|].
      destruct (sample !! "updated_at") as [[]|]; cbn in Hv;
        rewrite ?Hempty in Hv; try done.
      destruct (parse_iso s) as [dt|] eqn:Hparse; [|done]. by exists s, dt.
    + intros [?|[?|[?|[_ (s & dt & -> & Hparse)]]]]; try done.
      * exfalso. intuition congruence.
      * cbn. rewrite Hparse. by eexists.
  - split; [intros _; tauto | by eexists].
  - split; [intros _; tauto | by eexists].
  - split; [intros _; tauto | by eexists].
  - split; [by intros [? ?] | intros Hcase; exfalso; intuition congruence].
Qed.

Lemma loaded_metadata_keys_witness :
  IsoSample.parse "" = None
  /\ load "temp.json" (metadata_func IsoSample.parse IsoSample.isoformat)
       [dated_record] = Return [dated_document 1]
  /\ is_Some (metadata (dated_document 1) !! "updated_at")
  /\ ~ is_Some (metadata (dated_document 1) !! "content").
Proof.
  assert (Hempty : IsoSample.parse "" = None) by (vm_compute; reflexivity).
  assert (Hload : load "temp.json"
                    (metadata_func IsoSample.parse IsoSample.isoformat)
                    [dated_record] = Return [dated_document 1])
    by (vm_compute; reflexivity).
  split; [exact Hempty|]. split; [exact Hload|]. split.
  - apply (loaded_metadata_keys IsoSample.parse IsoSample.isoformat
             "temp.json" [dated_record] [dated_document 1] 0 dated_record
             (dated_document 1) "updated_at" Hempty Hload eq_refl eq_refl).
    do 3 right. split; [reflexivity|].
    exists "2020-03-01". eexists. split; vm_compute; reflexivity.
  - intros Hsome.
    apply (loaded_metadata_keys IsoSample.parse IsoSample.isoformat
             "temp.json" [dated_record] [dated_document 1] 0 dated_record
             (dated_document 1) "content" Hempty Hload eq_refl eq_refl)
      in Hsome.
    unfold defaulted_key in Hsome.
    destruct Hsome as [?|[?|[[?|[?|[?|?]]]|[? _]]]]; discriminate.
Defined.

(** X12: every passage cut from a record carries, under each of [name],
    [summary], [url] and [category], the record's value, or the empty string
    when the record has no such field, if the callback is [metadata_func];
    it carries none of the four keys if the callback is [clean_metadata]. *)
Theorem passage_fields_by_callback {datetime : Type}
  (parse_iso : string -> option datetime) (isoformat : datetime -> string)
  (file_path : string) (split_text : string -> list string)
  (n : normalizer) (data : list dict) (docs : list Document)
  (i : nat) (sample : dict) (d p : Document) (k : string) :
  load file_path (normalizer_callback parse_iso isoformat n) data
    = Return docs ->
  data !! i = Some sample ->
  docs !! i = Some d ->
  p ∈ split_document split_text d ->
  defaulted_key k ->
  metadata p !! k =
    match n with
    | MetadataFunc => Some (default (VStr "") (sample !! k))
    | CleanMetadata => None
    end.
Proof.
  intros Hload Hs Hd Hp Hkey.
  destruct (load_returns_inv parse_iso isoformat file_path n data docs Hload)
    as (_ & Hall).
  destruct (Hall i sample d Hs Hd) as (_ & Hmd & _).
  unfold split_document in Hp.
  apply list_elem_of_fmap in Hp as (chunk & -> & _). cbn [metadata].
  assert (k <> "updated_at" /\ k <> "seq_num" /\ k <> "source")
    as (Hua & Hseq & Hsrc)
    by (unfold defaulted_key in Hkey; repeat split; intros ->;
        intuition congruence).
  destruct n; cbn in Hmd.
  - rewrite (get_metadata_metadata_func _ _ _ _ _ _ Hmd k).
    by rewrite decide_False, decide_True.
  - rewrite (get_metadata_clean_metadata _ _ _ _ _ _ Hmd k).
    by rewrite !decide_False.
Qed.

Lemma passage_fields_by_callback_witness :
  load "temp.json" (sample_callback MetadataFunc) [dated_record]
    = Return [dated_document 1]
  /\ dated_document 1 ∈ split_document (fun text => [text]) (dated_document 1)
  /\ defaulted_key "name"
  /\ metadata (dated_document 1) !! "name"
     = Some (VStr "Work From Home Policy").
Proof.
  assert (Hload : load "temp.json" (sample_callback MetadataFunc)
                    [dated_record] = Return [dated_document 1])
    by (vm_compute; reflexivity).
  assert (Hp : dated_document 1
               ∈ split_document (fun text => [text]) (dated_document 1))
    by (unfold split_document; cbn; constructor).
  assert (Hkey : defaulted_key "name") by (unfold defaulted_key; auto).
  split; [exact Hload|]. split; [exact Hp|]. split; [exact Hkey|].
  exact (passage_fields_by_callback IsoSample.parse IsoSample.isoformat
           "temp.json" (fun text => [text]) MetadataFunc [dated_record]
           [dated_document 1] 0 dated_record (dated_document 1)
           (dated_document 1) "name" Hload eq_refl eq_refl Hp Hkey).
Defined.
